(** * Landmark-to-label classification pipeline

    A shallow embedding of the gesture-recognition core
    (backend [utils/preprocessing], the practice-feedback and training
    routes and the model storage they call) together with the properties
    claimed for it.

    Numbers.  A JavaScript number is modelled as an extended real: a finite
    value carries a real number, next to the three special values
    [Infinity], [-Infinity] and [NaN].  The special values propagate as in
    IEEE 754; finite values are computed exactly, so rounding, overflow to
    infinity, underflow and the sign of zero are outside the model. *)

From Stdlib Require Import Reals Lra Lia.
From stdpp Require Import base option list strings gmap.

Local Open Scope R_scope.

(** ** JavaScript numbers *)

Module JS.

Inductive num : Type :=
  | Finite (r : R)
  | Infinity
  | NegInfinity
  | NaN.

Definition Rltb (a b : R) : bool := if Rlt_dec a b then true else false.
Definition Rleb (a b : R) : bool := if Rle_dec a b then true else false.
Definition Reqb (a b : R) : bool := if Req_dec_T a b then true else false.

Definition isNaN (a : num) : bool :=
  match a with NaN => true | _ => false end.

Definition isFinite (a : num) : bool :=
  match a with Finite _ => true | _ => false end.

(** [a + b] *)
Definition add (a b : num) : num :=
  match a, b with
  | NaN, _ | _, NaN => NaN
  | Finite r, Finite s => Finite (r + s)
  | Infinity, NegInfinity | NegInfinity, Infinity => NaN
  | Infinity, _ | _, Infinity => Infinity
  | NegInfinity, _ | _, NegInfinity => NegInfinity
  end.

(** [a - b] *)
Definition sub (a b : num) : num :=
  match a, b with
  | NaN, _ | _, NaN => NaN
  | Finite r, Finite s => Finite (r - s)
  | Infinity, Infinity | NegInfinity, NegInfinity => NaN
  | Infinity, _ | _, NegInfinity => Infinity
  | NegInfinity, _ | _, Infinity => NegInfinity
  end.

(** An infinity with the sign flipped when [neg] is set. *)
Definition inf_sign (neg : bool) (a : num) : num :=
  match a, neg with
  | Infinity, true => NegInfinity
  | NegInfinity, true => Infinity
  | _, _ => a
  end.

(** [a * b] *)
Definition mul (a b : num) : num :=
  match a, b with
  | NaN, _ | _, NaN => NaN
  | Finite r, Finite s => Finite (r * s)
  | Finite r, i | i, Finite r =>
      if Reqb r 0 then NaN else inf_sign (Rltb r 0) i
  | Infinity, i => i
  | NegInfinity, i => inf_sign true i
  end.

(** [a / b]; a finite non-zero value over zero is an infinity with the
    sign of the numerator (the zero is taken to be [+0]). *)
Definition div (a b : num) : num :=
  match a, b with
  | NaN, _ | _, NaN => NaN
  | Finite r, Finite s =>
      if Reqb s 0
      then (if Reqb r 0 then NaN else inf_sign (Rltb r 0) Infinity)
      else Finite (r / s)
  | Finite _, _ => Finite 0
  | i, Finite s => inf_sign (Rltb s 0) i
  | _, _ => NaN
  end.

(** [a < b], [a > b], [a >= b], [a === b]: every comparison with [NaN]
    is false. *)
Definition lt (a b : num) : bool :=
  match a, b with
  | Finite r, Finite s => Rltb r s
  | Finite _, Infinity | NegInfinity, Finite _ | NegInfinity, Infinity => true
  | _, _ => false
  end.

Definition gt (a b : num) : bool := lt b a.

Definition ge (a b : num) : bool :=
  match a, b with
  | Finite r, Finite s => Rleb s r
  | Infinity, Finite _ | Finite _, NegInfinity | Infinity, NegInfinity | Infinity, Infinity | NegInfinity, NegInfinity => true
  | _, _ => false
  end.

Definition strict_eq (a b : num) : bool :=
  match a, b with
  | Finite r, Finite s => Reqb r s
  | Infinity, Infinity | NegInfinity, NegInfinity => true
  | _, _ => false
  end.

(** Truthiness of a number, as used by [||]: [0] and [NaN] are falsy. *)
Definition truthy (a : num) : bool :=
  match a with
  | Finite r => negb (Reqb r 0)
  | NaN => false
  | _ => true
  end.

Module Math.

Definition sqrt (a : num) : num :=
  match a with
  | Finite r => if Rltb r 0 then NaN else Finite (R_sqrt.sqrt r)
  | Infinity => Infinity
  | _ => NaN
  end.

Definition acos (a : num) : num :=
  match a with
  | Finite r => if Rleb (-1) r && Rleb r 1 then Finite (Ratan.acos r) else NaN
  | _ => NaN
  end.

(** [Math.max(a, b)] and [Math.min(a, b)]: [NaN] if either is. *)
Definition max (a b : num) : num :=
  match a, b with
  | NaN, _ | _, NaN => NaN
  | _, _ => if lt a b then b else a
  end.

Definition min (a b : num) : num :=
  match a, b with
  | NaN, _ | _, NaN => NaN
  | _, _ => if lt b a then b else a
  end.

(** [Math.max(...l)]: [-Infinity] for no argument. *)
Definition max_of (l : list num) : num := fold_left max l NegInfinity.

(** [Math.pow(a, 2)] *)
Definition pow2 (a : num) : num := mul a a.

End Math.

End JS.

Abbreviation num := JS.num.
Abbreviation Finite := JS.Finite.
Abbreviation Infinity := JS.Infinity.
Abbreviation NegInfinity := JS.NegInfinity.
Abbreviation NaN := JS.NaN.
Abbreviation isNaN := JS.isNaN.
Abbreviation isFinite := JS.isFinite.
Module Math := JS.Math.

Declare Scope js_scope.
Delimit Scope js_scope with js.
Bind Scope js_scope with JS.num.
Infix "+" := JS.add : js_scope.
Infix "-" := JS.sub : js_scope.
Infix "*" := JS.mul : js_scope.
Infix "/" := JS.div : js_scope.
Infix "<" := JS.lt : js_scope.
Infix ">" := JS.gt : js_scope.
Infix ">=" := JS.ge : js_scope.
Infix "===" := JS.strict_eq (at level 70, no associativity) : js_scope.

(** The test [!isNaN(f) && isFinite(f)] used on feature values. *)
Definition finite_value (f : num) : bool := negb (isNaN f) && isFinite f.

(** ** Landmarks and their normalisation *)

Record Landmark : Type := mkLandmark { x : num; y : num; z : num }.

(** The callback of the first [map] of [normalizeLandmarks]. *)
Definition translate (wrist point : Landmark) : Landmark :=
  {| x := x point - x wrist;
     y := y point - y wrist;
     z := z point - z wrist |}%js.

(** The callback of the second [map]: distance from the origin. *)
Definition norm (point : Landmark) : num :=
  Math.sqrt (x point * x point + y point * y point + z point * z point)%js.

(** The callback of the last [map]. *)
Definition scale (maxDistance : num) (point : Landmark) : Landmark :=
  {| x := x point / maxDistance;
     y := y point / maxDistance;
     z := z point / maxDistance |}%js.

(** [landmarks.map(point => point - wrist)] with [wrist = landmarks[0]];
    on the empty array the callback never runs. *)
Definition translated (landmarks : list Landmark) : list Landmark :=
  match landmarks with
  | [] => []
  | wrist :: _ => map (translate wrist) landmarks
  end.

(** [Math.max(...distances.filter(d => d > 0))] *)
Definition maxDistanceOf (normalized : list Landmark) : num :=
  Math.max_of (List.filter (fun d => d > Finite 0)%js (map norm normalized)).

Definition normalizeLandmarks (landmarks : list Landmark) : list Landmark :=
  let normalized := translated landmarks in
  let maxDistance := maxDistanceOf normalized in
  if (maxDistance === Finite 0)%js || negb (isFinite maxDistance)
  then normalized
  else map (scale maxDistance) normalized.

(** The same function, instrumented: next to the result it reports how
    many divisions by [maxDistance] were evaluated. *)
Definition normalizeLandmarks_counting (landmarks : list Landmark)
  : list Landmark * nat :=
  let normalized := translated landmarks in
  let maxDistance := maxDistanceOf normalized in
  if (maxDistance === Finite 0)%js || negb (isFinite maxDistance)
  then (normalized, 0%nat)
  else (map (scale maxDistance) normalized, (3 * length normalized)%nat).

(** ** Feature extraction *)

Definition euclideanDistance (a b : list num) : num :=
  if negb (length a =? length b)%nat then Infinity
  else Math.sqrt
         (fold_left (fun sum ab => sum + Math.pow2 (fst ab - snd ab))%js
                    (combine a b) (Finite 0)).

Definition calculateAngle (p1 p2 p3 : Landmark) : num :=
  let v1 := translate p2 p1 in
  let v2 := translate p2 p3 in
  let dot := (x v1 * x v2 + y v1 * y v2 + z v1 * z v2)%js in
  let mag1 := norm v1 in
  let mag2 := norm v2 in
  if (mag1 === Finite 0)%js || (mag2 === Finite 0)%js then Finite 0
  else
    let cosAngle := (dot / (mag1 * mag2))%js in
    let clampedCos := Math.max (Finite (-1)) (Math.min (Finite 1) cosAngle) in
    Math.acos clampedCos.

Definition fingerTips : list nat := [4; 8; 12; 16; 20]%nat.
Definition fingerBases : list nat := [2; 5; 9; 13; 17]%nat.
Definition palmPoints : list nat := [0; 1; 5; 9; 13; 17]%nat.

(** [[p.x, p.y, p.z]] *)
Definition coords (p : Landmark) : list num := [x p; y p; z p].

(** The index pairs visited by
    [for (i = 0; i < n; i++) for (j = i + 1; j < n; j++)]. *)
Fixpoint pairs (l : list nat) : list (nat * nat) :=
  match l with
  | [] => []
  | i :: rest => map (pair i) rest ++ pairs rest
  end.

(** Distance between the landmarks at two indices; reading a field of
    [landmarks[i]] throws when the index is out of range ([None]). *)
Definition distanceAt (landmarks : list Landmark) (ij : nat * nat)
  : option num :=
  p1 ← landmarks !! fst ij;
  p2 ← landmarks !! snd ij;
  Some (euclideanDistance (coords p1) (coords p2)).

Definition angleAt (landmarks : list Landmark) (i : nat) : option num :=
  p1 ← landmarks !! (i - 1)%nat;
  p2 ← landmarks !! i;
  p3 ← landmarks !! (i + 1)%nat;
  Some (calculateAngle p1 p2 p3).

(** The indices for which the angle loop pushes a value:
    [1 <= i < length] with [i + 1 < length]. *)
Definition angleIndices (len : nat) : list nat :=
  List.filter (fun i => (i + 1 <? len)%nat) (List.seq 1 (len - 1)).

(** All the values pushed, before the final filter. *)
Definition pushedFeatures (landmarks : list Landmark) : option (list num) :=
  let raw := flat_map coords landmarks in
  tips ← mapM (distanceAt landmarks) (combine fingerTips fingerBases);
  palm ← mapM (distanceAt landmarks) (pairs palmPoints);
  angles ← mapM (angleAt landmarks) (angleIndices (length landmarks));
  Some (raw ++ tips ++ palm ++ angles).

(** [None] stands for the [TypeError] thrown on a missing landmark. *)
Definition extractFeatures (landmarks : list Landmark) : option (list num) :=
  features ← pushedFeatures landmarks;
  Some (List.filter finite_value features).


(** ** Samples and preprocessing *)

(** A stored sample; a sample without a [landmarks] array is one whose
    array has length 0, which [preprocessLandmarks] skips the same way. *)
Record Sample : Type := mkSample {
  sample_landmarks : list Landmark;
  sample_sign : string
}.

Record Preprocessed : Type := mkPreprocessed {
  features : list (list num);
  labels : list string
}.

(** One step of the [forEach] of [preprocessLandmarks]; [None] is an
    exception escaping from [extractFeatures]. *)
Definition preprocessStep (acc : option Preprocessed) (sample : Sample)
  : option Preprocessed :=
  data ← acc;
  if (length (sample_landmarks sample) =? 21)%nat then
    fs ← extractFeatures (normalizeLandmarks (sample_landmarks sample));
    if forallb finite_value fs
    then Some {| features := features data ++ [fs];
                 labels := labels data ++ [sample_sign sample] |}
    else Some data
  else Some data.

Definition preprocessLandmarks (samples : list Sample) : option Preprocessed :=
  fold_left preprocessStep samples
            (Some {| features := []; labels := [] |}).

(** ** The network library

    brain.js is outside the repository: a serialised network ([toJSON]),
    the statistics of a training run, the training call and the forward
    pass of a network rebuilt with [fromJSON] are the interface the code
    uses.  [brain_run] gives the scores in the key order of the object
    returned by [run], or [None] when [fromJSON] or [run] throws. *)
Class Brain : Type := {
  Net : Type;
  Stats : Type;
  brain_train : list (list num * option string) -> Net * Stats;
  brain_run : Net -> list num -> option (list (string * num))
}.

(** [[...new Set(l)]]: the elements in the order of their first
    occurrence. *)
Definition setAdd (seen : list string) (a : string) : list string :=
  if bool_decide (a ∈ seen) then seen else seen ++ [a].

Definition setOf (l : list string) : list string := fold_left setAdd l [].

(** [Error] carries the message of the exception thrown. *)
Inductive Thrown (A : Type) : Type :=
  | Returned (a : A)
  | Error (message : string).
Arguments Returned {A} a.
Arguments Error {A} message.

Section Classifier.
Context `{Brain}.

Record Classifier : Type := mkClassifier {
  type : string;
  network : option Net;
  uniqueLabels : list string;
  trained : bool;
  timestamp : string;
  stats : Stats;
  featureLength : nat
}.

(** [now] is the reading of the clock, [new Date().toISOString()]. *)
Definition trainClassifier (now : string) (data : Preprocessed)
  : Thrown Classifier :=
  if (length (features data) =? 0)%nat
  then Error "No training data available"
  else
    let uniqueLabels := setOf (labels data) in
    if (length uniqueLabels <? 2)%nat
    then Error "Need at least 2 different signs to train"
    else
      let trainingData :=
        imap (fun index feature => (feature, labels data !! index))
             (features data) in
      let '(net, stats) := brain_train trainingData in
      Returned {| type := "neural_network";
                  network := Some net;
                  uniqueLabels := uniqueLabels;
                  trained := true;
                  timestamp := now;
                  stats := stats;
                  featureLength := length (default [] (features data !! 0%nat)) |}.

(** ** Prediction *)

Record Settings : Type := mkSettings {
  confidenceThreshold : option num
}.

Record Model : Type := mkModel {
  samples : list Sample;
  classifier : option Classifier;
  detection : Settings;
  sampleCounts : option (gmap string nat)
}.

Record Prediction : Type := mkPrediction {
  sign : string;
  confidence : num;
  allPredictions : option (list (string * num))
}.

(** The sentinel results [{ sign: s, confidence: 0 }]. *)
Definition sentinel (s : string) : Prediction :=
  {| sign := s; confidence := Finite 0; allPredictions := None |}.

(** The [forEach] over [Object.keys(prediction)]: the running maximum
    and its label, starting from [0] and ['UNKNOWN']. *)
Definition pickStep (best : num * string) (entry : string * num)
  : num * string :=
  if (snd entry > fst best)%js then (snd entry, fst entry) else best.

Definition pickMax (prediction : list (string * num)) : num * string :=
  fold_left pickStep prediction (Finite 0, "UNKNOWN").

(** [settings.confidenceThreshold || 0.7] *)
Definition thresholdOf (settings : Settings) : num :=
  match confidenceThreshold settings with
  | Some t => if JS.truthy t then t else Finite 0.7
  | None => Finite 0.7
  end.

(** [Math.min(0.99, Math.max(0.01, c))] *)
Definition clamp (c : num) : num :=
  Math.min (Finite 0.99) (Math.max (Finite 0.01) c).

Definition predictSign (model : Model) (landmarks : list Landmark)
    (settings : Settings) : Prediction :=
  match classifier model ≫= network with
  | None => sentinel "UNKNOWN"
  | Some net =>
    match extractFeatures (normalizeLandmarks landmarks) with
    | None => sentinel "ERROR"
    | Some features =>
      if (length features =? 0)%nat
         || existsb (fun f => isNaN f || negb (isFinite f)) features
      then sentinel "INVALID"
      else
        match brain_run net features with
        | None => sentinel "ERROR"
        | Some prediction =>
          let '(maxConfidence, predictedSign) := pickMax prediction in
          let confidenceThreshold := thresholdOf settings in
          let '(maxConfidence, predictedSign) :=
            if (maxConfidence < confidenceThreshold * Finite 0.5)%js
            then ((maxConfidence * Finite 0.5)%js, "UNCERTAIN")
            else (maxConfidence, predictedSign) in
          {| sign := predictedSign;
             confidence := clamp maxConfidence;
             allPredictions := Some prediction |}
        end
    end
  end.

End Classifier.

(** ** Model storage

    One JSON file per model, keyed by the model identifier; the store is
    the map from identifiers to the models read back from the files.  An
    update object is the function it applies to the stored record.  A
    model is kept with the fields that the pipeline reads or writes; its
    name, template and time stamps are left out. *)

Module ModelStorage.
Section Storage.
Context `{Brain}.

Definition getModel (store : gmap string Model) (modelId : string)
  : option Model := store !! modelId.

Definition updateModel (store : gmap string Model) (modelId : string)
    (updateData : Model -> Model) : gmap string Model * option Model :=
  match getModel store modelId with
  | None => (store, None)
  | Some model =>
      let updatedModel := updateData model in
      (<[modelId := updatedModel]> store, Some updatedModel)
  end.

Definition addSamplesToModel (store : gmap string Model) (modelId : string)
    (newSamples : list Sample) : gmap string Model * option Model :=
  match getModel store modelId with
  | None => (store, None)
  | Some model =>
      let updatedSamples := samples model ++ newSamples in
      updateModel store modelId
        (fun m => {| samples := updatedSamples;
                     classifier := classifier m;
                     detection := detection m;
                     sampleCounts := sampleCounts m |})
  end.

End Storage.
End ModelStorage.

(** ** The practice route *)

(** The [status] strings of the feedback; ['incorrect'] is the answer to
    a mismatch. *)
Inductive Status : Type := success | partial | incorrect | unclear.

Record Feedback : Type := mkFeedback {
  fb_prediction : string;
  fb_confidence : num;
  fb_expectedSign : string;
  isCorrect : bool;
  isPartiallyCorrect : bool;
  status : Status
}.

Record PracticeRequest : Type := mkPracticeRequest {
  pr_modelId : string;
  pr_landmarks : list Landmark;
  pr_expectedSign : string;
  pr_settings : Settings
}.

Inductive PracticeResponse : Type :=
  | PracticeInvalid
  | PracticeModelNotFound
  | PracticeNotTrained
  | PracticeResult (feedback : Feedback).

(** [{ confidenceThreshold: 0.6, ...model.settings?.detection, ...settings }] *)
Definition practiceSettings (detection settings : Settings) : Settings :=
  {| confidenceThreshold :=
       match confidenceThreshold settings, confidenceThreshold detection with
       | Some t, _ => Some t
       | None, Some t => Some t
       | None, None => Some (Finite 0.6)
       end |}.

Section Routes.
Context `{Brain}.

(** The feedback computed from a prediction (the message, colour and
    icon that go with each status are presentation only). *)
Definition practiceFeedback (prediction : Prediction) (expectedSign : string)
  : Feedback :=
  let isCorrect :=
    bool_decide (sign prediction = expectedSign)
    && (confidence prediction >= Finite 0.7)%js in
  let isPartiallyCorrect :=
    bool_decide (sign prediction = expectedSign)
    && (confidence prediction >= Finite 0.5)%js in
  {| fb_prediction := sign prediction;
     fb_confidence := confidence prediction;
     fb_expectedSign := expectedSign;
     isCorrect := isCorrect;
     isPartiallyCorrect := isPartiallyCorrect;
     status :=
       if isCorrect then success
       else if isPartiallyCorrect then partial
       else if (confidence prediction >= Finite 0.4)%js then incorrect
       else unclear |}.

Definition practicePredict (store : gmap string Model) (req : PracticeRequest)
  : PracticeResponse :=
  if bool_decide (pr_modelId req = "")
     || negb (length (pr_landmarks req) =? 21)%nat
     || bool_decide (pr_expectedSign req = "")
  then PracticeInvalid
  else
    match ModelStorage.getModel store (pr_modelId req) with
    | None => PracticeModelNotFound
    | Some model =>
      match classifier model with
      | None => PracticeNotTrained
      | Some _ =>
        let modelSettings := practiceSettings (detection model) (pr_settings req) in
        let prediction := predictSign model (pr_landmarks req) modelSettings in
        PracticeResult (practiceFeedback prediction (pr_expectedSign req))
      end
    end.

(** ** The training route *)

Record TrainRequest : Type := mkTrainRequest {
  tr_modelId : string;
  tr_samples : list Sample
}.

Inductive TrainResponse : Type :=
  | InvalidTrainingData
  | ModelNotFound
  | NeedTwoSamples
  | InsufficientSamples (insufficientSigns : list string)
                        (signCounts : gmap string nat)
  | TrainingError (message : string)
  | TrainingCompleted (model : option Model) (totalSamples : nat)
                      (signCounts : gmap string nat).

(** [signCounts[sample.sign] = (signCounts[sample.sign] || 0) + 1] *)
Definition countSign (signCounts : gmap string nat) (sample : Sample)
  : gmap string nat :=
  <[sample_sign sample := (default 0 (signCounts !! sample_sign sample) + 1)%nat]>
    signCounts.

Definition countSigns (allSamples : list Sample) : gmap string nat :=
  fold_left countSign allSamples ∅.

(** [Object.keys(signCounts).filter(sign => signCounts[sign] < 3)]; the
    order of the keys is that of [map_to_list]. *)
Definition insufficientOf (signCounts : gmap string nat) : list string :=
  List.filter
    (fun sign => match signCounts !! sign with
                 | Some n => (n <? 3)%nat
                 | None => false
                 end)
    (map fst (map_to_list signCounts)).

(** The handler of [POST /train] as a function of the store: the new
    store and the response.  The progress curve and the accuracies written
    next to the classifier are drawn from [Math.random] and are not kept
    in the model record. *)
Definition train (now : string) (store : gmap string Model) (req : TrainRequest)
  : gmap string Model * TrainResponse :=
  if bool_decide (tr_modelId req = "") || (length (tr_samples req) =? 0)%nat
  then (store, InvalidTrainingData)
  else
    match ModelStorage.getModel store (tr_modelId req) with
    | None => (store, ModelNotFound)
    | Some _ =>
      let store1 :=
        fst (ModelStorage.addSamplesToModel store (tr_modelId req) (tr_samples req)) in
      match ModelStorage.getModel store1 (tr_modelId req) with
      | None => (store1, TrainingError "Cannot read properties of null")
      | Some updatedModel =>
        let allSamples := samples updatedModel in
        if (length allSamples <? 2)%nat then (store1, NeedTwoSamples)
        else
          let signCounts := countSigns allSamples in
          let insufficientSigns := insufficientOf signCounts in
          if (0 <? length insufficientSigns)%nat
          then (store1, InsufficientSamples insufficientSigns signCounts)
          else
            match preprocessLandmarks allSamples with
            | None => (store1, TrainingError "Cannot read properties of undefined")
            | Some preprocessedData =>
              match trainClassifier now preprocessedData with
              | Error message => (store1, TrainingError message)
              | Returned classifier' =>
                let '(store2, finalModel) :=
                  ModelStorage.updateModel store1 (tr_modelId req)
                    (fun m => {| samples := samples m;
                                 classifier := Some classifier';
                                 detection := detection m;
                                 sampleCounts := Some signCounts |}) in
                (store2, TrainingCompleted finalModel (length allSamples) signCounts)
              end
            end
      end
    end.

End Routes.

(** * Vocabulary of the statements *)

(** ** Finite landmarks and exact arithmetic *)

Definition pt (a b c : R) : Landmark :=
  {| x := Finite a; y := Finite b; z := Finite c |}.

Definition finite_landmark (p : Landmark) : bool :=
  isFinite (x p) && isFinite (y p) && isFinite (z p).

Definition all_finite (landmarks : list Landmark) : bool :=
  forallb finite_landmark landmarks.

Definition not_nan (a : num) : Prop := isNaN a = false.

(** The real number carried by a finite value. *)
Definition real_of (a : num) : R :=
  match a with Finite r => r | _ => 0 end.

(** The real-valued counterpart of [norm], and the distance of a finite
    landmark from the origin. *)
Definition rnorm (a b c : R) : R := sqrt (a * a + b * b + c * c).

Definition rnormL (p : Landmark) : R :=
  rnorm (real_of (x p)) (real_of (y p)) (real_of (z p)).

(** The strictly positive distances, as [normalizeLandmarks] filters them. *)
Definition posDistances (normalized : list Landmark) : list R :=
  List.filter (JS.Rltb 0) (map rnormL normalized).

(** [M] is the greatest element of [l]. *)
Definition is_max (M : R) (l : list R) : Prop :=
  In M l /\ forall d, In d l -> d <= M.


(** ** Samples *)



(** ** The blocks of the feature vector *)

(** The index pairs and joints named by the specification of the feature
    vector: fingertip and base of each finger, the unordered pairs of the
    six palm anchors with [i < j], and the joints 1 to 19. *)
Definition tipBasePairs : list (nat * nat) :=
  [(4, 2); (8, 5); (12, 9); (16, 13); (20, 17)]%nat.

Definition palmPairs : list (nat * nat) :=
  [(0, 1); (0, 5); (0, 9); (0, 13); (0, 17);
   (1, 5); (1, 9); (1, 13); (1, 17);
   (5, 9); (5, 13); (5, 17);
   (9, 13); (9, 17);
   (13, 17)]%nat.

Definition jointIndices : list nat := List.seq 1 19.

(** [d] is the Euclidean distance between the landmarks at [i] and [j]. *)
Definition distance_between (landmarks : list Landmark) (ij : nat * nat)
    (d : num) : Prop :=
  exists p q, landmarks !! fst ij = Some p /\ landmarks !! snd ij = Some q
              /\ d = euclideanDistance (coords p) (coords q).

(** [a] is the angle at the joint [i] between the rays to its two
    neighbours. *)
Definition angle_at_joint (landmarks : list Landmark) (i : nat) (a : num)
  : Prop :=
  exists p1 p2 p3,
    landmarks !! (i - 1)%nat = Some p1 /\ landmarks !! i = Some p2
    /\ landmarks !! (i + 1)%nat = Some p3 /\ a = calculateAngle p1 p2 p3.

(** ** Labels, feedback and sample counts *)

(** The distinct elements of a list in the order of their first
    occurrence. *)
Fixpoint firstOccurrences (l : list string) : list string :=
  match l with
  | [] => []
  | a :: rest => a :: filter (fun b => b <> a) (firstOccurrences rest)
  end.

(** A list of labels is sorted when each label is strictly below the
    next one in the lexicographic order of their characters (the order of
    the default [sort]); a sorted list has no duplicate. *)
Fixpoint sorted_labels (l : list string) : bool :=
  match l with
  | a :: (b :: _) as rest => String.ltb a b && sorted_labels rest
  | _ => true
  end.

(** The feedback table of the specification, read row by row; its
    category [mismatch] is the status [incorrect] of the route. *)
Definition feedback_table (predicted expected : string) (c : R) : Status :=
  if bool_decide (predicted = expected) && JS.Rleb 0.7 c then success
  else if bool_decide (predicted = expected) && JS.Rleb 0.5 c && JS.Rltb c 0.7
  then partial
  else if negb (bool_decide (predicted = expected)) && JS.Rleb 0.4 c
  then incorrect
  else unclear.


(** ** Concrete inputs *)

(** An open hand (the wrist at the origin, the other landmarks on a line
    of finite points), the same hand with a NaN written into the [x] of
    the wrist, and a hand whose every coordinate is [Infinity]. *)
Definition open_hand : list Landmark :=
  pt 0 0 0 :: map (fun i => pt (INR i) 1 0) (List.seq 1 20).

Definition nan_hand : list Landmark :=
  <[0%nat := {| x := NaN; y := Finite 0; z := Finite 0 |}]> open_hand.

Definition unbounded_hand : list Landmark :=
  repeat {| x := Infinity; y := Infinity; z := Infinity |} 21.

(** A stand-in for the library: a serialised network is the table of
    scores that its forward pass returns on every input, and training
    returns the empty table. *)
Definition tableBrain : Brain :=
  {| Net := list (string * num);
     Stats := unit;
     brain_train := fun _ => ([], tt);
     brain_run := fun net _ => Some net |}.

(** A trained model holding the given table, and the same model before
    any training. *)
Definition tableModel (scores : list (string * num)) : @Model tableBrain :=
  @mkModel tableBrain []
    (Some (@mkClassifier tableBrain "neural_network" (Some scores)
             (map fst scores) true "" tt 102%nat))
    {| confidenceThreshold := None |} None.

Definition untrainedModel : @Model tableBrain :=
  @mkModel tableBrain [] None {| confidenceThreshold := None |} None.

Definition noSettings : Settings := {| confidenceThreshold := None |}.

(** A store holding one trained model under the identifier ["m"], and a
    practice request for it. *)
Definition practiceStore (scores : list (string * num))
  : gmap string (@Model tableBrain) := {[ "m" := tableModel scores ]}.

Definition practiceRequest (expected : string) : PracticeRequest :=
  {| pr_modelId := "m"; pr_landmarks := open_hand;
     pr_expectedSign := expected; pr_settings := noSettings |}.

(** A store holding one untrained model without samples, and a training
    request bringing a single sample of the sign ["A"], or two. *)
Definition emptyStore : gmap string (@Model tableBrain) :=
  {[ "m" := untrainedModel ]}.

Definition sampleA : Sample :=
  {| sample_landmarks := open_hand; sample_sign := "A" |}.



(** ** Tactics *)

(** Settles every comparison of reals in the goal by a case split, closing
    the impossible cases by linear arithmetic. *)
Ltac rcases :=
  unfold JS.Rltb, JS.Rleb, JS.Reqb in *;
  repeat match goal with
  | |- context [Rlt_dec ?a ?b] => destruct (Rlt_dec a b)
  | |- context [Rle_dec ?a ?b] => destruct (Rle_dec a b)
  | |- context [Req_dec_T ?a ?b] => destruct (Req_dec_T a b)
  end;
  simpl; try reflexivity; try lra.

(** Evaluates a comparison-driven computation on concrete numbers, one
    comparison at a time. *)
Ltac js_step :=
  unfold pickMax, pickStep, thresholdOf, clamp, Math.min, Math.max,
    JS.gt, JS.ge, JS.lt, JS.strict_eq, JS.truthy, JS.Rltb, JS.Rleb, JS.Reqb;
  cbn;
  match goal with
  | |- context [Rlt_dec ?a ?b] => destruct (Rlt_dec a b); [| try lra]
  | |- context [Rle_dec ?a ?b] => destruct (Rle_dec a b); [| try lra]
  | |- context [Req_dec_T ?a ?b] => destruct (Req_dec_T a b); [| try lra]
  end;
  try lra.

Ltac js_eval := cbn; repeat js_step; cbn; try reflexivity.


(** * Further parts of the backend *)

(** ** Session storage and the session routes

    One JSON file per session, keyed by an identifier drawn by [uuidv4];
    the store is the map from identifiers to sessions.  A time is the
    number of milliseconds that [getTime] gives for it, and [now] is the
    reading of the clock. *)

Record SessionPrediction : Type := mkSessionPrediction {
  sp_sign : string;
  sp_confidence : num;
  sp_timestamp : Z
}.

Record SessionStats : Type := mkSessionStats {
  totalPredictions : nat;
  avgConfidence : num;
  highConfidencePredictions : nat;
  sessionDuration : Z
}.

Record Session : Type := mkSession {
  session_id : string;
  session_modelId : string;
  session_settings : Settings;
  startTime : Z;
  predictions : list SessionPrediction;
  session_stats : SessionStats;
  endTime : option Z;
  detectedText : option string;
  completed : bool
}.

Module SessionStorage.

Definition getSession (store : gmap string Session) (sessionId : string)
  : option Session := store !! sessionId.

(** [sessionId] is the identifier drawn for the new session. *)
Definition createSession (store : gmap string Session) (sessionId : string)
    (sessionData : Session) : gmap string Session * Session :=
  let session :=
    {| session_id := sessionId;
       session_modelId := session_modelId sessionData;
       session_settings := session_settings sessionData;
       startTime := startTime sessionData;
       predictions := predictions sessionData;
       session_stats := session_stats sessionData;
       endTime := endTime sessionData;
       detectedText := detectedText sessionData;
       completed := completed sessionData |} in
  (<[sessionId := session]> store, session).

Definition updateSession (store : gmap string Session) (sessionId : string)
    (updateData : Session -> Session) : gmap string Session * option Session :=
  match getSession store sessionId with
  | None => (store, None)
  | Some session =>
      let updatedSession := updateData session in
      (<[sessionId := updatedSession]> store, Some updatedSession)
  end.

End SessionStorage.

Inductive SessionResponse : Type :=
  | SessionNotFound
  | SessionModelNotFound
  | SessionResult (session : option Session).

(** [updatedPredictions.reduce((sum, p) => sum + p.confidence, 0)
     / totalPredictions] *)
Definition averageConfidence (updatedPredictions : list SessionPrediction)
  : num :=
  (fold_left (fun sum p => sum + sp_confidence p) updatedPredictions (Finite 0)
   / Finite (INR (length updatedPredictions)))%js.

(** [updatedPredictions.filter(p => p.confidence >= 0.7).length] *)
Definition highConfidenceCount (updatedPredictions : list SessionPrediction)
  : nat :=
  length (List.filter (fun p => sp_confidence p >= Finite 0.7)%js
                      updatedPredictions).

(** [POST /:sessionId/prediction] *)
Definition addPrediction (now : Z) (store : gmap string Session)
    (sessionId : string) (prediction : string) (confidence : num)
  : gmap string Session * SessionResponse :=
  match SessionStorage.getSession store sessionId with
  | None => (store, SessionNotFound)
  | Some session =>
      let newPrediction :=
        {| sp_sign := prediction; sp_confidence := confidence;
           sp_timestamp := now |} in
      let updatedPredictions := predictions session ++ [newPrediction] in
      let totalPredictions := length updatedPredictions in
      let avgConfidence := averageConfidence updatedPredictions in
      let highConfidencePredictions := highConfidenceCount updatedPredictions in
      let sessionDuration := ((now - startTime session) / 1000)%Z in
      let '(store', updatedSession) :=
        SessionStorage.updateSession store sessionId
          (fun s =>
             {| session_id := session_id s;
                session_modelId := session_modelId s;
                session_settings := session_settings s;
                startTime := startTime s;
                predictions := updatedPredictions;
                session_stats :=
                  {| totalPredictions := totalPredictions;
                     avgConfidence := avgConfidence;
                     highConfidencePredictions := highConfidencePredictions;
                     sessionDuration := sessionDuration |};
                endTime := endTime s;
                detectedText := detectedText s;
                completed := completed s |}) in
      (store', SessionResult updatedSession)
  end.

(** [POST /:sessionId/end] *)
Definition endSession (now : Z) (store : gmap string Session)
    (sessionId : string) (text : option string)
  : gmap string Session * SessionResponse :=
  match SessionStorage.getSession store sessionId with
  | None => (store, SessionNotFound)
  | Some session =>
      let endTime' := now in
      let sessionDuration := ((endTime' - startTime session) / 1000)%Z in
      let '(store', finalSession) :=
        SessionStorage.updateSession store sessionId
          (fun s =>
             {| session_id := session_id s;
                session_modelId := session_modelId s;
                session_settings := session_settings s;
                startTime := startTime s;
                predictions := predictions s;
                session_stats :=
                  {| totalPredictions := totalPredictions (session_stats session);
                     avgConfidence := avgConfidence (session_stats session);
                     highConfidencePredictions :=
                       highConfidencePredictions (session_stats session);
                     sessionDuration := sessionDuration |};
                endTime := Some endTime';
                detectedText := text;
                completed := true |}) in
      (store', SessionResult finalSession)
  end.

Section MoreRoutes.
Context `{Brain}.

(** [POST /start]; [sessionId] is the identifier drawn for the session. *)
Definition startSession (now : Z) (sessionId : string)
    (models : gmap string Model) (store : gmap string Session)
    (modelId : string) (settings : option Settings)
  : gmap string Session * SessionResponse :=
  match ModelStorage.getModel models modelId with
  | None => (store, SessionModelNotFound)
  | Some _ =>
      let '(store', session) :=
        SessionStorage.createSession store sessionId
          {| session_id := sessionId;
             session_modelId := modelId;
             session_settings := default {| confidenceThreshold := None |} settings;
             startTime := now;
             predictions := [];
             session_stats :=
               {| totalPredictions := 0; avgConfidence := Finite 0;
                  highConfidencePredictions := 0; sessionDuration := 0 |};
             endTime := None;
             detectedText := None;
             completed := false |} in
      (store', SessionResult (Some session))
  end.

(** ** The prediction route and the status route *)

Record PredictRequest : Type := mkPredictRequest {
  pq_modelId : string;
  pq_landmarks : list Landmark;
  pq_settings : Settings
}.

Inductive PredictResponse : Type :=
  | PredictInvalid
  | PredictModelNotFound
  | PredictNotTrained
  | PredictResult (prediction : string) (confidence : num)
                  (allPredictions : list (string * num)).

(** [{ ...model.settings?.detection, ...settings }] *)
Definition predictSettings (detection settings : Settings) : Settings :=
  {| confidenceThreshold :=
       match confidenceThreshold settings with
       | Some t => Some t
       | None => confidenceThreshold detection
       end |}.

(** [POST /predict] *)
Definition predict (store : gmap string Model) (req : PredictRequest)
  : PredictResponse :=
  if bool_decide (pq_modelId req = "")
     || negb (length (pq_landmarks req) =? 21)%nat
  then PredictInvalid
  else
    match ModelStorage.getModel store (pq_modelId req) with
    | None => PredictModelNotFound
    | Some model =>
      match classifier model with
      | None => PredictNotTrained
      | Some _ =>
        let modelSettings := predictSettings (detection model) (pq_settings req) in
        let prediction := predictSign model (pq_landmarks req) modelSettings in
        PredictResult (sign prediction) (confidence prediction)
                      (default [] (allPredictions prediction))
      end
    end.



End MoreRoutes.

(** ** Practice statistics

    The statistics that [ModelStorage.updatePracticeStats] computes for a
    model from the stored ones ([None] when the model has none yet) and
    the data of one practice session; the function then writes them into
    the model with [updateModel]. *)




(** ** Responses in natural language

    The NLP manager is outside the repository: [manager_process] is the
    answer it gives for a text ([None] for no answer or an empty one), or
    the exception it throws; [toLowerCase] is the method of the
    language. *)

Class Nlp : Type := {
  manager_process : string -> Thrown (option string);
  toLowerCase : string -> string
}.

(** The space character, code 32. *)
Definition space : Ascii.ascii := Ascii.ascii_of_nat 32.

(** [s.split(' ')]: the pieces between the spaces, one more than there
    are spaces. *)
Fixpoint splitSpace (s : string) : list string :=
  match s with
  | EmptyString => [EmptyString]
  | String c rest =>
      if Ascii.eqb c space then EmptyString :: splitSpace rest
      else match splitSpace rest with
           | word :: words => String c word :: words
           | [] => [String c EmptyString]
           end
  end.

(** The entries of [signDictionary], followed by the two lower-case keys
    that every object inherits, with the text that their values show
    as. *)
Definition signDictionary : list (string * string) :=
  [("a", "la letra A"); ("b", "la letra B"); ("c", "la letra C");
   ("d", "la letra D"); ("e", "la letra E"); ("i", "la letra I");
   ("o", "la letra O"); ("u", "la letra U");
   ("1", "el número uno"); ("2", "el número dos"); ("3", "el número tres");
   ("4", "el número cuatro"); ("5", "el número cinco");
   ("+", "más"); ("-", "menos"); ("x", "por"); ("/", "dividido");
   ("hola", "hola"); ("adios", "adiós"); ("gracias", "gracias");
   ("constructor", "function Object() { [native code] }");
   ("__proto__", "[object Object]")].

Fixpoint lookupWord (dictionary : list (string * string)) (word : string)
  : option string :=
  match dictionary with
  | [] => None
  | (key, value) :: rest =>
      if String.eqb key word then Some value else lookupWord rest word
  end.

(** [words.map(word => signDictionary[word] || word)] *)
Definition processSignLanguageText (words : list string) : list string :=
  map (fun word => default word (lookupWord signDictionary word)) words.

(** [words.pop()] on an empty array gives [undefined]. *)
Definition constructSentence (words : list string) : string :=
  match words with
  | [word] => "Has expresado " +:+ word +:+ "."
  | [word0; word1] => "Has expresado " +:+ word0 +:+ " y " +:+ word1 +:+ "."
  | _ =>
      let lastWord := default "undefined" (last words) in
      "Has expresado " +:+ String.concat ", " (removelast words)
        +:+ " y " +:+ lastWord +:+ "."
  end.

Section NaturalLanguage.
Context `{Nlp}.

Definition generateResponse (text : string) : string :=
  match manager_process (toLowerCase text) with
  | Error _ => "Mensaje recibido: " +:+ text
  | Returned (Some answer) => answer
  | Returned None =>
      let words := splitSpace (toLowerCase text) in
      let signWords := processSignLanguageText words in
      if (0 <? length signWords)%nat then constructSentence signWords
      else "Has expresado: " +:+ text
  end.

End NaturalLanguage.

(** * Further vocabulary *)




(** The test of [preprocessLandmarks] on a sample: exactly 21 landmarks. *)
Definition has21 (sample : Sample) : bool :=
  (length (sample_landmarks sample) =? 21)%nat.





(** The store after a series of predictions posted to one session, each
    given as the time of the request, the sign and the confidence. *)
Definition posted (post : Z * string * num) : SessionPrediction :=
  {| sp_sign := snd (fst post); sp_confidence := snd post;
     sp_timestamp := fst (fst post) |}.

Definition postAll (store : gmap string Session) (sessionId : string)
    (posts : list (Z * string * num)) : gmap string Session :=
  fold_left
    (fun st post =>
       fst (addPrediction (fst (fst post)) st sessionId (snd (fst post))
                          (snd post)))
    posts store.

(** The number of spaces in a string. *)
Fixpoint countSpaces (s : string) : nat :=
  match s with
  | EmptyString => 0
  | String c rest => (if Ascii.eqb c space then 1 else 0) + countSpaces rest
  end.

(** A manager without answers, and a lower-casing that leaves a text as
    it is. *)
Definition silentNlp : Nlp :=
  {| manager_process := fun _ => Returned None;
     toLowerCase := fun text => text |}.



(** * Properties *)

(** ** Deciding comparisons of reals *)

Lemma Rltb_true a b : a < b -> JS.Rltb a b = true.
Proof. intros H. unfold JS.Rltb. destruct (Rlt_dec a b); [reflexivity | lra]. Qed.

Lemma Rltb_false a b : b <= a -> JS.Rltb a b = false.
Proof. intros H. unfold JS.Rltb. destruct (Rlt_dec a b); [lra | reflexivity]. Qed.


Lemma Rleb_false a b : b < a -> JS.Rleb a b = false.
Proof. intros H. unfold JS.Rleb. destruct (Rle_dec a b); [lra | reflexivity]. Qed.

Lemma Reqb_true a b : a = b -> JS.Reqb a b = true.
Proof. intros H. unfold JS.Reqb. destruct (Req_dec_T a b); [reflexivity | lra]. Qed.

Lemma Reqb_false a b : a <> b -> JS.Reqb a b = false.
Proof. intros H. unfold JS.Reqb. destruct (Req_dec_T a b); [contradiction | reflexivity]. Qed.

(** ** Finite landmarks *)

Lemma finite_landmark_pt p :
  finite_landmark p = true -> exists a b c, p = pt a b c.
Proof.
  destruct p as [[a| | |] [b| | |] [c| | |]]; try discriminate.
  intros _. by exists a, b, c.
Qed.

Lemma finite_value_isFinite f : finite_value f = isFinite f.
Proof. by destruct f. Qed.

Lemma sum_squares_nonneg a b c : 0 <= a * a + b * b + c * c.
Proof. nra. Qed.



Lemma rnorm_origin : rnorm 0 0 0 = 0.
Proof. unfold rnorm. replace (0 * 0 + 0 * 0 + 0 * 0) with 0 by ring. apply sqrt_0. Qed.


Lemma norm_pt a b c : norm (pt a b c) = Finite (rnorm a b c).
Proof.
  unfold norm, pt; simpl. rewrite Rltb_false; [reflexivity |].
  apply sum_squares_nonneg.
Qed.

Lemma translate_pt a b c a' b' c' :
  translate (pt a b c) (pt a' b' c') = pt (a' - a) (b' - b) (c' - c).
Proof. reflexivity. Qed.

Lemma all_finite_Forall l :
  all_finite l = true <-> Forall (fun p => finite_landmark p = true) l.
Proof. unfold all_finite. rewrite forallb_forall, List.Forall_forall. reflexivity. Qed.

Lemma norm_finite p :
  finite_landmark p = true -> norm p = Finite (rnormL p).
Proof.
  intros Hp. destruct (finite_landmark_pt p Hp) as (a & b & c & ->).
  apply norm_pt.
Qed.

Lemma translate_finite w p :
  finite_landmark w = true -> finite_landmark p = true ->
  finite_landmark (translate w p) = true.
Proof.
  intros Hw Hp.
  destruct (finite_landmark_pt w Hw) as (a & b & c & ->).
  destruct (finite_landmark_pt p Hp) as (a' & b' & c' & ->).
  reflexivity.
Qed.

Lemma translated_length l : length (translated l) = length l.
Proof. destruct l; [reflexivity |]. unfold translated. by rewrite length_map. Qed.

Lemma translated_finite l :
  all_finite l = true -> all_finite (translated l) = true.
Proof.
  destruct l as [| w l]; [done |].
  rewrite !all_finite_Forall. intros Hl. unfold translated.
  apply Forall_map. pose proof (Forall_inv Hl) as Hw.
  eapply Forall_impl; [exact Hl |]. intros p Hp. simpl. by apply translate_finite.
Qed.

Lemma norms_finite l :
  all_finite l = true -> map norm l = map Finite (map rnormL l).
Proof.
  rewrite all_finite_Forall. induction 1 as [| p l Hp _ IH]; [reflexivity |].
  simpl. by rewrite IH, norm_finite.
Qed.

Lemma filter_positive_finite (l : list R) :
  List.filter (fun d => d > Finite 0)%js (map Finite l)
  = map Finite (List.filter (JS.Rltb 0) l).
Proof.
  induction l as [| d l IH]; [reflexivity |]. cbn [map List.filter].
  change (Finite d > Finite 0)%js with (JS.Rltb 0 d).
  destruct (JS.Rltb 0 d); cbn [map]; by rewrite IH.
Qed.

Lemma maxDistanceOf_finite l :
  all_finite l = true ->
  maxDistanceOf l = Math.max_of (map Finite (posDistances l)).
Proof.
  intros Hl. unfold maxDistanceOf, posDistances.
  by rewrite norms_finite, filter_positive_finite.
Qed.

(** The fold of [Math.max] over finite values yields their greatest. *)
Lemma fold_max_finite (l : list R) (a : R) :
  exists M, fold_left Math.max (map Finite l) (Finite a) = Finite M
            /\ is_max M (a :: l).
Proof.
  revert a. induction l as [| d l IH]; intros a.
  - exists a. split; [reflexivity |]. split; [by left |].
    intros d [-> | []]. lra.
  - simpl. unfold JS.Rltb. destruct (Rlt_dec a d) as [Hlt | Hge].
    + destruct (IH d) as (M & -> & Hin & Hub). exists M. split; [done |].
      split; [by right |]. intros e [<- | He]; [| by apply Hub].
      specialize (Hub d (or_introl eq_refl)). lra.
    + destruct (IH a) as (M & -> & Hin & Hub). exists M. split; [done |].
      split.
      * destruct Hin as [<- | Hin]; [by left | by right; right].
      * intros e [<- | [<- | He]].
        -- apply Hub. by left.
        -- specialize (Hub a (or_introl eq_refl)). lra.
        -- apply Hub. by right.
Qed.

Lemma max_of_finite (l : list R) :
  l <> [] -> exists M, Math.max_of (map Finite l) = Finite M /\ is_max M l.
Proof.
  destruct l as [| d l]; [done |]. intros _.
  unfold Math.max_of. simpl. apply fold_max_finite.
Qed.



Lemma normalizeLandmarks_counting_fst landmarks :
  fst (normalizeLandmarks_counting landmarks) = normalizeLandmarks landmarks.
Proof.
  unfold normalizeLandmarks_counting, normalizeLandmarks. cbv zeta.
  by destruct (_ || _).
Qed.

Lemma posDistances_positive M l : In M (posDistances l) -> 0 < M.
Proof.
  unfold posDistances. intros [_ H]%filter_In. unfold JS.Rltb in H.
  by destruct (Rlt_dec 0 M).
Qed.

(** The two ways through [normalizeLandmarks] on a finite sample: no
    positive distance and the early return, or the division by the
    greatest distance. *)
Lemma normalize_cases landmarks :
  all_finite landmarks = true ->
  let normalized := translated landmarks in
  (posDistances normalized = []
   /\ normalizeLandmarks_counting landmarks = (normalized, 0%nat))
  \/ (exists M, 0 < M /\ is_max M (posDistances normalized)
      /\ normalizeLandmarks_counting landmarks
         = (map (scale (Finite M)) normalized, (3 * length normalized)%nat)).
Proof.
  intros Hfin normalized. unfold normalizeLandmarks_counting.
  fold normalized. cbv zeta.
  rewrite (maxDistanceOf_finite normalized) by by apply translated_finite.
  destruct (posDistances normalized) as [| d ds] eqn:Hpos.
  - left. by split.
  - right. destruct (max_of_finite (d :: ds)) as (M & -> & HM); [done |].
    assert (0 < M) as HMpos.
    { apply (posDistances_positive M normalized). rewrite Hpos. apply HM. }
    exists M. split; [done |]. split; [done |].
    cbn [JS.strict_eq isFinite negb orb]. by rewrite Reqb_false by lra.
Qed.


Lemma posDistances_origin n : posDistances (repeat (pt 0 0 0) n) = [].
Proof.
  unfold posDistances. induction n as [| n IH]; [reflexivity |].
  cbn [repeat map List.filter]. unfold rnormL at 1. cbn [pt x y z real_of].
  rewrite rnorm_origin, Rltb_false by lra. exact IH.
Qed.

Lemma translated_repeat a b c n :
  translated (repeat (pt a b c) n) = repeat (pt 0 0 0) n.
Proof.
  destruct n as [| n]; [reflexivity |].
  change (translated (repeat (pt a b c) (S n)))
    with (map (translate (pt a b c)) (repeat (pt a b c) (S n))).
  generalize (S n) as m. induction m as [| m IH]; [reflexivity |].
  cbn [repeat map]. rewrite IH, translate_pt.
  by replace (a - a) with 0 by ring; replace (b - b) with 0 by ring;
     replace (c - c) with 0 by ring.
Qed.

Lemma all_finite_repeat a b c n : all_finite (repeat (pt a b c) n) = true.
Proof. induction n; [reflexivity | exact IHn]. Qed.

(** C5. When all 21 landmarks are the same point, [normalizeLandmarks]
    returns 21 zero vectors and evaluates no division; and whenever the
    greatest positive distance from the wrist is zero or not finite, the
    translated landmarks are returned as they are, again without a
    division.  (The point has real coordinates: with an infinite or NaN
    coordinate the translation itself already yields NaN.) *)
Theorem normalize_degenerate :
  (forall a b c,
     normalizeLandmarks (repeat (pt a b c) 21) = repeat (pt 0 0 0) 21
     /\ normalizeLandmarks_counting (repeat (pt a b c) 21)
        = (repeat (pt 0 0 0) 21, 0%nat))
  /\ (forall landmarks,
        let maxDistance := maxDistanceOf (translated landmarks) in
        maxDistance = Finite 0 \/ isFinite maxDistance = false ->
        normalizeLandmarks landmarks = translated landmarks
        /\ normalizeLandmarks_counting landmarks
           = (translated landmarks, 0%nat)).
Proof.
  split.
  - intros a b c.
    assert (normalizeLandmarks_counting (repeat (pt a b c) 21)
            = (repeat (pt 0 0 0) 21, 0%nat)) as Hc.
    { destruct (normalize_cases (repeat (pt a b c) 21)
                  (all_finite_repeat a b c 21)) as [[_ Hc] | (M & HM & Hmax & _)].
      - by rewrite Hc, translated_repeat.
      - rewrite translated_repeat, posDistances_origin in Hmax.
        destruct Hmax as [[] _]. }
    split; [| exact Hc].
    by rewrite <- normalizeLandmarks_counting_fst, Hc.
  - intros landmarks maxDistance Hdeg.
    assert (normalizeLandmarks_counting landmarks = (translated landmarks, 0%nat))
      as Hc.
    { unfold normalizeLandmarks_counting. fold maxDistance. cbv zeta.
      destruct Hdeg as [-> | Hnf].
      - cbn [JS.strict_eq]. by rewrite Reqb_true.
      - rewrite Hnf. by rewrite orb_true_r. }
    split; [| exact Hc].
    by rewrite <- normalizeLandmarks_counting_fst, Hc.
Qed.

Lemma normalize_degenerate_witness :
  normalizeLandmarks unbounded_hand = translated unbounded_hand
  /\ normalizeLandmarks_counting unbounded_hand
     = (translated unbounded_hand, 0%nat).
Proof.
  apply (proj2 normalize_degenerate unbounded_hand). right. reflexivity.
Defined.

(** ** The normalised sample *)

Lemma scale_pt M a b c :
  M <> 0 -> scale (Finite M) (pt a b c) = pt (a / M) (b / M) (c / M).
Proof.
  intros HM. unfold scale, pt. cbn [x y z JS.div]. by rewrite !Reqb_false.
Qed.


Lemma scale_finite M p :
  M <> 0 -> finite_landmark p = true ->
  finite_landmark (scale (Finite M) p) = true.
Proof.
  intros HM Hp. destruct (finite_landmark_pt p Hp) as (a & b & c & ->).
  by rewrite scale_pt.
Qed.









(** ** Invariance under scaling and translation *)










(** ** Feature extraction *)

Lemma euclideanDistance_finite p q :
  finite_landmark p = true -> finite_landmark q = true ->
  isFinite (euclideanDistance (coords p) (coords q)) = true.
Proof.
  intros Hp Hq.
  destruct (finite_landmark_pt p Hp) as (a & b & c & ->).
  destruct (finite_landmark_pt q Hq) as (a' & b' & c' & ->).
  unfold euclideanDistance. cbn.
  rewrite Rltb_false; [reflexivity |].
  pose proof (sum_squares_nonneg (a - a') (b - b') (c - c')). lra.
Qed.

Lemma calculateAngle_finite p1 p2 p3 :
  finite_landmark p1 = true -> finite_landmark p2 = true ->
  finite_landmark p3 = true ->
  isFinite (calculateAngle p1 p2 p3) = true.
Proof.
  intros H1 H2 H3.
  destruct (finite_landmark_pt p1 H1) as (a1 & b1 & c1 & ->).
  destruct (finite_landmark_pt p2 H2) as (a2 & b2 & c2 & ->).
  destruct (finite_landmark_pt p3 H3) as (a3 & b3 & c3 & ->).
  unfold calculateAngle. rewrite !translate_pt, !norm_pt. cbv zeta.
  set (m1 := rnorm _ _ _). set (m2 := rnorm _ _ _).
  cbn [JS.strict_eq pt x y z JS.mul JS.add].
  destruct (Req_dec_T m1 0) as [Hm1 | Hm1];
    [by rewrite (Reqb_true m1 0) |].
  destruct (Req_dec_T m2 0) as [Hm2 | Hm2];
    [by rewrite (Reqb_true m2 0), orb_true_r |].
  rewrite !Reqb_false by done. cbn [orb JS.div].
  rewrite Reqb_false by by apply Rmult_integral_contrapositive.
  set (c := _ / _). unfold Math.min, Math.max, Math.acos, JS.lt.
  rcases.
Qed.

Lemma flat_map_coords_length l : length (flat_map coords l) = (3 * length l)%nat.
Proof. induction l as [| p l IH]; [reflexivity |]. cbn. lia. Qed.

Lemma distanceAt_Some landmarks ij :
  (fst ij < length landmarks)%nat -> (snd ij < length landmarks)%nat ->
  exists d, distanceAt landmarks ij = Some d
            /\ distance_between landmarks ij d.
Proof.
  intros [p Hp]%lookup_lt_is_Some [q Hq]%lookup_lt_is_Some.
  exists (euclideanDistance (coords p) (coords q)). split.
  - unfold distanceAt. by rewrite Hp, Hq.
  - by exists p, q.
Qed.

Lemma angleAt_Some landmarks i :
  (i + 1 < length landmarks)%nat ->
  exists a, angleAt landmarks i = Some a /\ angle_at_joint landmarks i a.
Proof.
  intros Hi.
  destruct (lookup_lt_is_Some_2 landmarks (i - 1)%nat) as [p1 H1]; [lia |].
  destruct (lookup_lt_is_Some_2 landmarks i) as [p2 H2]; [lia |].
  destruct (lookup_lt_is_Some_2 landmarks (i + 1)%nat) as [p3 H3]; [lia |].
  exists (calculateAngle p1 p2 p3). split.
  - unfold angleAt. by rewrite H1, H2, H3.
  - by exists p1, p2, p3.
Qed.

(** A partial function that succeeds on every element of a list, with a
    result in a given relation, maps the whole list. *)
Lemma mapM_total {A B} (f : A -> option B) (Q : A -> B -> Prop) (l : list A) :
  Forall (fun a => exists b, f a = Some b /\ Q a b) l ->
  exists k, mapM f l = Some k /\ Forall2 Q l k.
Proof.
  induction 1 as [| a l (b & Hb & HQ) _ (k & Hk & HF)].
  - by exists [].
  - exists (b :: k). split; [| by constructor].
    apply mapM_Some. constructor; [done |]. by apply mapM_Some.
Qed.

(** On 21 landmarks every read is in range: the values pushed are the 63
    coordinates, the 5 finger distances, the 15 palm distances and the 19
    joint angles, in this order. *)
Lemma pushedFeatures_21 landmarks :
  length landmarks = 21%nat ->
  exists tips palm angles,
    pushedFeatures landmarks
    = Some (flat_map coords landmarks ++ tips ++ palm ++ angles)
    /\ Forall2 (distance_between landmarks) tipBasePairs tips
    /\ Forall2 (distance_between landmarks) palmPairs palm
    /\ Forall2 (angle_at_joint landmarks) jointIndices angles.
Proof.
  intros Hlen.
  destruct (mapM_total (distanceAt landmarks) (distance_between landmarks)
              tipBasePairs) as (tips & Htips & HFt).
  { repeat constructor; apply distanceAt_Some; rewrite Hlen; cbn; lia. }
  destruct (mapM_total (distanceAt landmarks) (distance_between landmarks)
              palmPairs) as (palm & Hpalm & HFp).
  { repeat constructor; apply distanceAt_Some; rewrite Hlen; cbn; lia. }
  destruct (mapM_total (angleAt landmarks) (angle_at_joint landmarks)
              jointIndices) as (angles & Hangles & HFa).
  { repeat constructor; apply angleAt_Some; rewrite Hlen; cbn; lia. }
  exists tips, palm, angles. split; [| done].
  unfold pushedFeatures. rewrite Hlen.
  change (combine fingerTips fingerBases) with tipBasePairs.
  change (pairs palmPoints) with palmPairs.
  change (angleIndices 21) with jointIndices.
  rewrite Htips, Hpalm, Hangles. reflexivity.
Qed.

Lemma normalize_finite landmarks :
  all_finite landmarks = true ->
  all_finite (normalizeLandmarks landmarks) = true
  /\ length (normalizeLandmarks landmarks) = length landmarks.
Proof.
  intros Hfin. pose proof (translated_finite _ Hfin) as HT.
  rewrite <- normalizeLandmarks_counting_fst.
  destruct (normalize_cases landmarks Hfin) as [[_ ->] | (M & HM & _ & ->)];
    cbn [fst].
  - split; [done | apply translated_length].
  - split; [| by rewrite length_map, translated_length].
    apply all_finite_Forall, Forall_map. apply all_finite_Forall in HT.
    eapply Forall_impl; [exact HT |]. intros p Hp. apply scale_finite; [lra | done].
Qed.

Lemma filter_keeps_all {A} (f : A -> bool) (l : list A) :
  forallb f l = true -> List.filter f l = l.
Proof.
  induction l as [| a l IH]; [reflexivity |]. cbn.
  intros [Ha Hl]%andb_true_iff. by rewrite Ha, IH.
Qed.

Lemma lookup_finite landmarks i p :
  all_finite landmarks = true -> landmarks !! i = Some p ->
  finite_landmark p = true.
Proof.
  intros Hfin Hp. apply all_finite_Forall in Hfin.
  by apply (Forall_lookup_1 _ _ _ _ Hfin Hp).
Qed.

Lemma coords_finite landmarks :
  all_finite landmarks = true ->
  forallb finite_value (flat_map coords landmarks) = true.
Proof.
  rewrite all_finite_Forall. induction 1 as [| p l Hp _ IH]; [reflexivity |].
  destruct (finite_landmark_pt p Hp) as (a & b & c & ->). exact IH.
Qed.

Lemma distances_finite landmarks l ds :
  all_finite landmarks = true ->
  Forall2 (distance_between landmarks) l ds ->
  forallb finite_value ds = true.
Proof.
  intros Hfin. induction 1 as [| ij d l ds (p & q & Hp & Hq & ->) _ IH];
    [reflexivity |].
  cbn [forallb]. rewrite IH, andb_true_r, finite_value_isFinite.
  apply euclideanDistance_finite; eauto using lookup_finite.
Qed.

Lemma angles_finite landmarks l angles :
  all_finite landmarks = true ->
  Forall2 (angle_at_joint landmarks) l angles ->
  forallb finite_value angles = true.
Proof.
  intros Hfin.
  induction 1 as [| i a l angles (p1 & p2 & p3 & H1 & H2 & H3 & ->) _ IH];
    [reflexivity |].
  cbn [forallb]. rewrite IH, andb_true_r, finite_value_isFinite.
  apply calculateAngle_finite; eauto using lookup_finite.
Qed.

(** On 21 finite landmarks every value pushed is finite, so the final
    filter of [extractFeatures] removes nothing. *)
Lemma extract_finite_unfiltered normalized :
  length normalized = 21%nat ->
  all_finite normalized = true ->
  exists tips palm angles,
    extractFeatures normalized
    = Some (flat_map coords normalized ++ tips ++ palm ++ angles)
    /\ Forall2 (distance_between normalized) tipBasePairs tips
    /\ Forall2 (distance_between normalized) palmPairs palm
    /\ Forall2 (angle_at_joint normalized) jointIndices angles
    /\ forallb finite_value
         (flat_map coords normalized ++ tips ++ palm ++ angles) = true.
Proof.
  intros Hlen Hfin.
  destruct (pushedFeatures_21 normalized Hlen)
    as (tips & palm & angles & Hpushed & Ht & Hp & Ha).
  assert (forallb finite_value
            (flat_map coords normalized ++ tips ++ palm ++ angles) = true)
    as Hall.
  { rewrite !forallb_app, coords_finite by done.
    rewrite (distances_finite normalized tipBasePairs tips),
      (distances_finite normalized palmPairs palm),
      (angles_finite normalized jointIndices angles); done. }
  exists tips, palm, angles. split; [| done].
  unfold extractFeatures. rewrite Hpushed. cbn.
  by rewrite filter_keeps_all.
Qed.

(** The open hand has a non-empty feature vector. *)
Lemma open_hand_features :
  exists fs, extractFeatures (normalizeLandmarks open_hand) = Some fs
             /\ fs <> [].
Proof.
  destruct (normalize_finite open_hand eq_refl) as [Hfin Hlen].
  destruct (extract_finite_unfiltered _ Hlen Hfin)
    as (tips & palm & angles & Hfs & _).
  eexists. split; [exact Hfs |].
  pose proof (flat_map_coords_length (normalizeLandmarks open_hand)) as Hc.
  rewrite Hlen in Hc. intros Hnil. apply (f_equal length) in Hnil.
  rewrite length_app, Hc in Hnil. discriminate Hnil.
Qed.



(** ** Non-finite coordinates *)

Lemma normalize_length landmarks :
  length (normalizeLandmarks landmarks) = length landmarks.
Proof.
  unfold normalizeLandmarks. cbv zeta. destruct (_ || _).
  - apply translated_length.
  - by rewrite length_map, translated_length.
Qed.

Lemma sub_nonfinite a b : isFinite a = false -> isFinite (a - b)%js = false.
Proof. by destruct a, b. Qed.

Lemma div_nonfinite a M : isFinite a = false -> isFinite (a / Finite M)%js = false.
Proof. destruct a; try done; intros _; cbn; by destruct (JS.Rltb M 0). Qed.

Lemma translate_nonfinite w p :
  finite_landmark p = false -> finite_landmark (translate w p) = false.
Proof.
  unfold finite_landmark, translate. cbn [x y z].
  intros [[H | H]%andb_false_iff | H]%andb_false_iff;
    rewrite (sub_nonfinite _ _ H); by rewrite ?andb_false_r.
Qed.

Lemma scale_nonfinite M p :
  finite_landmark p = false -> finite_landmark (scale (Finite M) p) = false.
Proof.
  unfold finite_landmark, scale. cbn [x y z].
  intros [[H | H]%andb_false_iff | H]%andb_false_iff;
    rewrite (div_nonfinite _ _ H); by rewrite ?andb_false_r.
Qed.

Lemma all_finite_map_false (f : Landmark -> Landmark) l :
  (forall p, finite_landmark p = false -> finite_landmark (f p) = false) ->
  all_finite l = false -> all_finite (map f l) = false.
Proof.
  intros Hf. unfold all_finite. induction l as [| p l IH]; [done |]. cbn.
  destruct (finite_landmark p) eqn:Hp.
  - cbn. intros Hl. by rewrite IH, andb_false_r.
  - intros _. by rewrite Hf.
Qed.

(** A non-finite coordinate of the input is still non-finite after
    [normalizeLandmarks]. *)
Lemma normalize_nonfinite landmarks :
  all_finite landmarks = false ->
  all_finite (normalizeLandmarks landmarks) = false.
Proof.
  intros Hnf.
  assert (all_finite (translated landmarks) = false) as HT.
  { destruct landmarks as [| w l]; [done |]. unfold translated.
    apply all_finite_map_false; [apply translate_nonfinite | done]. }
  unfold normalizeLandmarks. cbv zeta.
  destruct (maxDistanceOf (translated landmarks)) as [M | | |] eqn:HM;
    cbn [JS.strict_eq isFinite negb orb]; try done.
  destruct (JS.Reqb M 0); [done |]. cbn [orb].
  apply all_finite_map_false; [apply scale_nonfinite | done].
Qed.

Lemma coords_nonfinite l :
  all_finite l = false -> forallb finite_value (flat_map coords l) = false.
Proof.
  unfold all_finite. induction l as [| p l IH]; [done |].
  cbn [forallb flat_map]. rewrite forallb_app.
  destruct (finite_landmark p) eqn:Hp.
  - cbn. intros Hl. by rewrite IH, andb_false_r.
  - intros _. unfold finite_landmark in Hp. cbn [coords forallb].
    rewrite !finite_value_isFinite, andb_true_r, andb_assoc, Hp. done.
Qed.

Lemma filter_drops {A} (f : A -> bool) (l : list A) :
  forallb f l = false -> (length (List.filter f l) < length l)%nat.
Proof.
  induction l as [| a l IH]; [done |]. cbn.
  pose proof (filter_length_le f l) as Hle.
  destruct (f a); cbn; [intros H; apply IH in H; lia | lia].
Qed.

Lemma filter_all_pass {A} (f : A -> bool) (l : list A) :
  forallb f (List.filter f l) = true.
Proof.
  apply forallb_forall. by intros a [_ Ha]%filter_In.
Qed.

(** What [extractFeatures] returns has passed its filter: the tests for a
    non-finite feature made by its callers cannot succeed. *)
Lemma extractFeatures_filtered landmarks fs :
  extractFeatures landmarks = Some fs ->
  forallb finite_value fs = true
  /\ existsb (fun f => isNaN f || negb (isFinite f)) fs = false.
Proof.
  unfold extractFeatures. destruct (pushedFeatures landmarks) as [pushed |];
    [| done]. cbn. intros [= <-].
  pose proof (filter_all_pass finite_value pushed) as Hall.
  split; [done |]. revert Hall. generalize (List.filter finite_value pushed).
  intros l. induction l as [| f l IH]; [done |]. cbn.
  intros [Hf Hl]%andb_true_iff. rewrite (IH Hl).
  unfold finite_value in Hf. apply andb_true_iff in Hf as [Hn Hi].
  rewrite Hi. apply negb_true_iff in Hn. by rewrite Hn.
Qed.

(** A sample of 21 landmarks with a NaN or infinite coordinate is not
    reported as invalid by [extractFeatures]: the non-finite values are
    dropped and a vector of fewer than 102 values is returned. *)
Lemma nonfinite_sample_shortened landmarks :
  length landmarks = 21%nat ->
  all_finite landmarks = false ->
  exists fs, extractFeatures (normalizeLandmarks landmarks) = Some fs
             /\ (length fs < 102)%nat
             /\ forallb finite_value fs = true.
Proof.
  intros Hlen Hnf. apply normalize_nonfinite in Hnf.
  pose proof (normalize_length landmarks) as HNlen. rewrite Hlen in HNlen.
  destruct (pushedFeatures_21 _ HNlen)
    as (tips & palm & angles & Hpushed & Ht & Hp & Ha).
  unfold extractFeatures. rewrite Hpushed. cbn. eexists. split; [done |].
  split; [| apply filter_all_pass].
  pose proof (Forall2_length _ _ _ Ht) as Hlt.
  pose proof (Forall2_length _ _ _ Hp) as Hlp.
  pose proof (Forall2_length _ _ _ Ha) as Hla.
  pose proof (flat_map_coords_length (normalizeLandmarks landmarks)) as Hlc.
  rewrite HNlen in Hlc. cbn in Hlt, Hlp, Hla, Hlc.
  eapply Nat.lt_le_trans.
  - apply filter_drops. by rewrite forallb_app, coords_nonfinite.
  - rewrite !length_app. lia.
Qed.

(** ** Prediction *)

Section Prediction.
Context `{Brain}.

(** The result of [predictSign] once the forward pass has returned. *)
Lemma predictSign_scored model landmarks settings net fs prediction :
  classifier model ≫= network = Some net ->
  extractFeatures (normalizeLandmarks landmarks) = Some fs ->
  fs <> [] ->
  brain_run net fs = Some prediction ->
  predictSign model landmarks settings
  = if (fst (pickMax prediction) < thresholdOf settings * Finite 0.5)%js
    then {| sign := "UNCERTAIN";
            confidence := clamp (fst (pickMax prediction) * Finite 0.5)%js;
            allPredictions := Some prediction |}
    else {| sign := snd (pickMax prediction);
            confidence := clamp (fst (pickMax prediction));
            allPredictions := Some prediction |}.
Proof.
  intros Hnet Hfs Hne Hrun. unfold predictSign. rewrite Hnet, Hfs.
  destruct (extractFeatures_filtered _ _ Hfs) as [_ ->].
  destruct fs as [| f fs]; [done |]. cbn [length Nat.eqb orb].
  rewrite Hrun. destruct (pickMax prediction) as [maxConfidence predictedSign].
  cbn [fst snd]. by destruct (_ < _)%js.
Qed.

(** Either a sentinel, or the scored result of a forward pass. *)
Lemma predictSign_cases model landmarks settings :
  (exists s, (s = "UNKNOWN" \/ s = "INVALID" \/ s = "ERROR")
             /\ predictSign model landmarks settings = sentinel s)
  \/ (exists net fs prediction,
        classifier model ≫= network = Some net
        /\ extractFeatures (normalizeLandmarks landmarks) = Some fs
        /\ fs <> []
        /\ brain_run net fs = Some prediction).
Proof.
  unfold predictSign.
  destruct (classifier model ≫= network) as [net |] eqn:Hnet;
    [| left; exists "UNKNOWN"; auto].
  destruct (extractFeatures (normalizeLandmarks landmarks)) as [fs |] eqn:Hfs;
    [| left; exists "ERROR"; auto].
  destruct (extractFeatures_filtered _ _ Hfs) as [_ ->].
  destruct fs as [| f fs]; [left; exists "INVALID"; auto |].
  cbn [length Nat.eqb orb].
  destruct (brain_run net (f :: fs)) as [prediction |] eqn:Hrun;
    [| left; exists "ERROR"; auto].
  right. by exists net, (f :: fs), prediction.
Qed.





End Prediction.





(** C1, at a sample with a NaN in one coordinate.  [extractFeatures]
    returns the 42 values that survive its filter; the sample passes the
    test of [preprocessLandmarks] and is kept for training with this short
    vector; and [predictSign] does not answer [INVALID] but classifies
    it. *)
Theorem nan_sample_not_rejected :
  exists fs,
    extractFeatures (normalizeLandmarks nan_hand) = Some fs
    /\ length fs = 42%nat
    /\ preprocessLandmarks [{| sample_landmarks := nan_hand; sample_sign := "A" |}]
       = Some {| features := [fs]; labels := ["A"] |}
    /\ predictSign (tableModel [("A", Finite 0.9)]) nan_hand noSettings
       = {| sign := "A"; confidence := Finite 0.9;
            allPredictions := Some [("A", Finite 0.9)] |}.
Proof.
  assert (exists fs, extractFeatures (normalizeLandmarks nan_hand) = Some fs
                     /\ length fs = 42%nat) as (fs & Hfs & Hlen).
  { eexists. split; [vm_compute; reflexivity | reflexivity]. }
  exists fs. split; [done |]. split; [done |]. split.
  - unfold preprocessLandmarks, preprocessStep. cbn [fold_left mbind option_bind].
    cbn [sample_landmarks sample_sign].
    change (length nan_hand =? 21)%nat with true. cbv iota. rewrite Hfs.
    cbn [mbind option_bind].
    by destruct (extractFeatures_filtered _ _ Hfs) as [-> _].
  - rewrite (predictSign_scored (tableModel [("A", Finite 0.9)]) nan_hand
               noSettings [("A", Finite 0.9)] fs [("A", Finite 0.9)]);
      [| reflexivity | exact Hfs | | reflexivity].
    + js_eval.
    + intros ->. discriminate Hlen.
Qed.

(** ** Practice feedback *)

(** The status computed by the route, spelled out on a finite confidence:
    the third test does not look at the labels. *)
Lemma practiceFeedback_status predicted expected c scores :
  status (practiceFeedback
            {| sign := predicted; confidence := Finite c;
               allPredictions := scores |} expected)
  = if bool_decide (predicted = expected) && JS.Rleb 0.7 c then success
    else if bool_decide (predicted = expected) && JS.Rleb 0.5 c then partial
    else if JS.Rleb 0.4 c then incorrect
    else unclear.
Proof. reflexivity. Qed.

(** Where the labels differ, and where they agree with a confidence of at
    least 0.5 or below 0.4, the route follows the table. *)
Lemma practiceFeedback_follows_table predicted expected c scores :
  predicted <> expected \/ 0.5 <= c \/ c < 0.4 ->
  status (practiceFeedback
            {| sign := predicted; confidence := Finite c;
               allPredictions := scores |} expected)
  = feedback_table predicted expected c.
Proof.
  intros Hcase. rewrite practiceFeedback_status. unfold feedback_table.
  destruct (bool_decide_reflect (predicted = expected)) as [Heq | Hne];
    cbn [andb negb]; [| rcases].
  destruct Hcase as [Hne | Hc]; [done |]. rcases.
Qed.

(** The four examples of the specification. *)
Example practiceFeedback_examples :
  status (practiceFeedback (mkPrediction "A" (Finite 0.85) None) "A") = success
  /\ status (practiceFeedback (mkPrediction "A" (Finite 0.55) None) "A") = partial
  /\ status (practiceFeedback (mkPrediction "B" (Finite 0.45) None) "A") = incorrect
  /\ status (practiceFeedback (mkPrediction "B" (Finite 0.2) None) "A") = unclear.
Proof. repeat split; rewrite practiceFeedback_status; cbn; rcases. Qed.

(** C4, at equal labels with a confidence of 0.45.  The table gives
    [unclear]; the route answers [incorrect] (the status of a mismatch),
    both on the prediction alone and through the whole handler, for a
    model whose network scores the expected sign ["A"] at 0.45. *)
Theorem practice_equal_labels_low_confidence :
  status (practiceFeedback (mkPrediction "A" (Finite 0.45) None) "A") = incorrect
  /\ feedback_table "A" "A" 0.45 = unclear
  /\ exists feedback,
       practicePredict (practiceStore [("A", Finite 0.45)]) (practiceRequest "A")
       = PracticeResult feedback
       /\ fb_prediction feedback = "A"
       /\ fb_expectedSign feedback = "A"
       /\ fb_confidence feedback = Finite 0.45
       /\ status feedback = incorrect.
Proof.
  split; [rewrite practiceFeedback_status; cbn; rcases |].
  split; [unfold feedback_table; cbn; rcases |].
  destruct open_hand_features as (fs & Hfs & Hne).
  assert (predictSign (tableModel [("A", Finite 0.45)]) open_hand
            (practiceSettings noSettings noSettings)
          = mkPrediction "A" (Finite 0.45) (Some [("A", Finite 0.45)])) as Hpred.
  { rewrite (predictSign_scored (tableModel [("A", Finite 0.45)]) open_hand _
               [("A", Finite 0.45)] _ [("A", Finite 0.45)] eq_refl Hfs Hne eq_refl).
    js_eval. }
  eexists. split.
  - unfold practicePredict, practiceStore, practiceRequest, ModelStorage.getModel.
    cbn [pr_modelId pr_landmarks pr_expectedSign pr_settings].
    rewrite lookup_singleton_eq.
    change (bool_decide ("m" = "") || negb (length open_hand =? 21)%nat
            || bool_decide ("A" = "")) with false.
    cbv iota. cbn [tableModel classifier detection].
    change {| confidenceThreshold := None |} with noSettings.
    rewrite Hpred. reflexivity.
  - repeat split; rewrite ?practiceFeedback_status; cbn; rcases.
Qed.

(** ** Training *)

Lemma fold_setAdd acc l :
  fold_left setAdd l acc
  = acc ++ filter (fun b => b ∉ acc) (firstOccurrences l).
Proof.
  revert acc. induction l as [| a l IH]; intros acc.
  - cbn. by rewrite app_nil_r.
  - cbn [fold_left firstOccurrences]. rewrite IH. unfold setAdd.
    destruct (bool_decide_reflect (a ∈ acc)) as [Hin | Hout].
    + rewrite filter_cons_False by (by intros Hn; apply Hn).
      rewrite list_filter_filter_l; [done |]. intros b Hb ->. by apply Hb.
    + rewrite filter_cons_True by done. rewrite <- app_assoc. cbn [app].
      do 2 f_equal. rewrite list_filter_filter. apply list_filter_iff.
      intros b. rewrite not_elem_of_app, list_elem_of_singleton. done.
Qed.

(** [[...new Set(l)]] lists the distinct elements by first occurrence. *)
Lemma setOf_firstOccurrences l : setOf l = firstOccurrences l.
Proof.
  unfold setOf. rewrite fold_setAdd. cbn [app].
  induction (firstOccurrences l) as [| b k IH]; [done |].
  rewrite filter_cons_True by apply not_elem_of_nil. by rewrite IH.
Qed.

Lemma firstOccurrences_elem_of l a : a ∈ firstOccurrences l <-> a ∈ l.
Proof.
  induction l as [| b l IH]; [done |]. cbn [firstOccurrences].
  rewrite !elem_of_cons, list_elem_of_filter, IH.
  destruct (decide (a = b)); tauto.
Qed.

Lemma firstOccurrences_NoDup l : NoDup (firstOccurrences l).
Proof.
  induction l as [| b l IH]; [constructor |]. cbn [firstOccurrences].
  constructor; [| by apply NoDup_filter].
  rewrite list_elem_of_filter. by intros [Hne _].
Qed.

Lemma two_distinct_length (l : list string) a b :
  NoDup l -> a ∈ l -> b ∈ l -> a <> b -> (2 <= length l)%nat.
Proof.
  intros Hnd Ha Hb Hne. destruct l as [| c [| d l]]; cbn; [| | lia].
  - by apply elem_of_nil in Ha.
  - apply list_elem_of_singleton in Ha, Hb. congruence.
Qed.

(** C8, as the code has it.  On a non-empty training set with two
    distinct labels [trainClassifier] returns an artifact that holds the
    distinct labels in the order of their first occurrence (they are not
    sorted), the serialised network and the statistics of the training
    run. *)
Theorem trainClassifier_labels `{Brain} now data a b :
  features data <> [] ->
  a ∈ labels data -> b ∈ labels data -> a <> b ->
  exists artifact,
    trainClassifier now data = Returned artifact
    /\ uniqueLabels artifact = firstOccurrences (labels data)
    /\ NoDup (uniqueLabels artifact)
    /\ (forall label, label ∈ uniqueLabels artifact <-> label ∈ labels data)
    /\ (exists net, network artifact = Some net
          /\ (net, stats artifact)
             = brain_train
                 (imap (fun index feature => (feature, labels data !! index))
                       (features data))).
Proof.
  intros Hne Ha Hb Hab. unfold trainClassifier.
  destruct (features data) as [| f fs] eqn:Hfs; [done |].
  cbn [length Nat.eqb]. rewrite setOf_firstOccurrences.
  pose proof (two_distinct_length (firstOccurrences (labels data)) a b
                (firstOccurrences_NoDup _)
                (proj2 (firstOccurrences_elem_of _ _) Ha)
                (proj2 (firstOccurrences_elem_of _ _) Hb) Hab) as Hlen.
  destruct (length (firstOccurrences (labels data)) <? 2)%nat eqn:Hlt.
  { apply Nat.ltb_lt in Hlt. lia. }
  destruct (brain_train _) as [net st] eqn:Htrain.
  eexists. split; [reflexivity |]. cbn [uniqueLabels network stats].
  split; [done |]. split; [apply firstOccurrences_NoDup |].
  split; [apply firstOccurrences_elem_of |].
  by exists net.
Qed.

Lemma trainClassifier_labels_witness :
  exists artifact,
    @trainClassifier tableBrain "now"
      {| features := [[Finite 0]; [Finite 1]]; labels := ["B"; "A"] |}
    = Returned artifact
    /\ uniqueLabels artifact = firstOccurrences ["B"; "A"].
Proof.
  destruct (@trainClassifier_labels tableBrain "now"
              {| features := [[Finite 0]; [Finite 1]]; labels := ["B"; "A"] |}
              "B" "A")
    as (artifact & Hret & Hlabels & _).
  - discriminate.
  - cbn. left.
  - cbn. right. left.
  - discriminate.
  - exists artifact. split; [exact Hret | exact Hlabels].
Defined.

(** The labels ["B"], ["A"], met in this order, are returned in this
    order, which is not sorted. *)
Lemma trainClassifier_labels_counterexample :
  exists artifact,
    @trainClassifier tableBrain "now"
      {| features := [[Finite 0]; [Finite 1]]; labels := ["B"; "A"] |}
    = Returned artifact
    /\ uniqueLabels artifact = ["B"; "A"]
    /\ sorted_labels (uniqueLabels artifact) = false.
Proof. eexists. split; [vm_compute; reflexivity |]. split; reflexivity. Qed.

(** ** The training route *)








(** * Further properties of the pipeline *)

(** ** Distances *)








(** ** Angles *)















(** ** More on normalisation *)










(** ** Missing landmarks *)

Lemma angleIndices_in_range len i :
  In i (angleIndices len) -> (1 <= i /\ i + 1 < len)%nat.
Proof.
  unfold angleIndices. intros [Hseq Hlt]%filter_In.
  apply in_seq in Hseq. apply Nat.ltb_lt in Hlt. lia.
Qed.

Lemma extractFeatures_short landmarks :
  (length landmarks < 21)%nat -> extractFeatures landmarks = None.
Proof.
  intros Hshort. unfold extractFeatures, pushedFeatures.
  change (combine fingerTips fingerBases) with tipBasePairs.
  assert (mapM (distanceAt landmarks) tipBasePairs = None) as ->; [| done].
  apply mapM_None. unfold tipBasePairs. do 4 apply Exists_cons_tl.
  apply Exists_cons_hd. unfold distanceAt. cbn [fst].
  by rewrite (lookup_ge_None_2 landmarks 20) by lia.
Qed.

Lemma extractFeatures_long landmarks :
  (21 <= length landmarks)%nat ->
  exists fs, extractFeatures landmarks = Some fs
             /\ forallb finite_value fs = true.
Proof.
  intros Hlen.
  destruct (mapM_total (distanceAt landmarks) (distance_between landmarks)
              tipBasePairs) as (tips & Htips & _).
  { repeat constructor; apply distanceAt_Some; cbn; lia. }
  destruct (mapM_total (distanceAt landmarks) (distance_between landmarks)
              palmPairs) as (palm & Hpalm & _).
  { repeat constructor; apply distanceAt_Some; cbn; lia. }
  destruct (mapM_total (angleAt landmarks) (angle_at_joint landmarks)
              (angleIndices (length landmarks))) as (angles & Hangles & _).
  { apply List.Forall_forall. intros i Hi%angleIndices_in_range.
    apply angleAt_Some. lia. }
  unfold extractFeatures, pushedFeatures.
  change (combine fingerTips fingerBases) with tipBasePairs.
  change (pairs palmPoints) with palmPairs.
  rewrite Htips, Hpalm, Hangles. cbn. eexists. split; [done |].
  apply filter_all_pass.
Qed.

(** X6. [extractFeatures] throws exactly when it is given fewer than 21
    landmarks (it reads the landmark of index 20); with 21 or more it
    returns a vector of finite values. *)
Theorem extractFeatures_throws_iff_short landmarks :
  (extractFeatures landmarks = None <-> (length landmarks < 21)%nat)
  /\ ((21 <= length landmarks)%nat ->
      exists fs, extractFeatures landmarks = Some fs
                 /\ forallb finite_value fs = true).
Proof.
  split; [| apply extractFeatures_long]. split.
  - intros Hnone. destruct (Nat.lt_ge_cases (length landmarks) 21) as [| Hge];
      [done |].
    destruct (extractFeatures_long landmarks Hge) as (fs & Hfs & _). congruence.
  - apply extractFeatures_short.
Qed.

Lemma extractFeatures_throws_iff_short_witness :
  exists fs, extractFeatures open_hand = Some fs
             /\ forallb finite_value fs = true.
Proof.
  apply (proj2 (extractFeatures_throws_iff_short open_hand)). cbn. lia.
Defined.

(** X7. With a model that has a network, [predictSign] answers the
    sentinel [ERROR] with confidence 0 for every landmark list of fewer
    than 21 landmarks, the empty list included: the exception of
    [extractFeatures] is caught. *)
Theorem predictSign_short_input `{Brain} model landmarks settings net :
  classifier model ≫= network = Some net ->
  (length landmarks < 21)%nat ->
  predictSign model landmarks settings = sentinel "ERROR".
Proof.
  intros Hnet Hshort. unfold predictSign. rewrite Hnet.
  assert (extractFeatures (normalizeLandmarks landmarks) = None) as ->; [| done].
  apply extractFeatures_short. by rewrite normalize_length.
Qed.

Lemma predictSign_short_input_witness :
  predictSign (tableModel [("A", Finite 0.9)]) [] noSettings = sentinel "ERROR".
Proof.
  apply (@predictSign_short_input tableBrain _ _ _ [("A", Finite 0.9)]).
  - reflexivity.
  - cbn. lia.
Defined.

(** ** Preprocessing *)

Lemma preprocess_fold samples acc :
  exists kept,
    fold_left preprocessStep samples (Some acc)
    = Some {| features := features acc ++ kept;
              labels := labels acc
                        ++ map sample_sign (List.filter has21 samples) |}
    /\ Forall2 (fun sample fs =>
                  extractFeatures (normalizeLandmarks (sample_landmarks sample))
                  = Some fs)
               (List.filter has21 samples) kept.
Proof.
  revert acc. induction samples as [| sample samples IH]; intros acc.
  - exists []. cbn. rewrite !app_nil_r. by destruct acc.
  - cbn [fold_left List.filter]. unfold preprocessStep at 2. cbn [mbind option_bind].
    fold (has21 sample). destruct (has21 sample) eqn:Hlen.
    + apply Nat.eqb_eq in Hlen.
      destruct (extractFeatures_long (normalizeLandmarks (sample_landmarks sample)))
        as (fs & Hfs & Hall); [rewrite normalize_length; lia |].
      rewrite Hfs. cbn [mbind option_bind]. rewrite Hall.
      destruct (IH {| features := features acc ++ [fs];
                      labels := labels acc ++ [sample_sign sample] |})
        as (kept & -> & HF).
      exists (fs :: kept). cbn [features labels map].
      rewrite <- !app_assoc. split; [done |]. by constructor.
    + apply IH.
Qed.

(** X8. [preprocessLandmarks] never throws.  It keeps exactly the samples
    that have 21 landmarks, in their order and whatever their coordinates
    are: the labels are the signs of these samples, the feature vectors
    are those that [extractFeatures] returns for them, one per label, and
    every value in them is finite. *)
Theorem preprocessLandmarks_keeps_21 samples :
  exists data,
    preprocessLandmarks samples = Some data
    /\ labels data = map sample_sign (List.filter has21 samples)
    /\ Forall2 (fun sample fs =>
                  extractFeatures (normalizeLandmarks (sample_landmarks sample))
                  = Some fs)
               (List.filter has21 samples) (features data)
    /\ length (features data) = length (labels data)
    /\ Forall (fun fs => forallb finite_value fs = true) (features data).
Proof.
  unfold preprocessLandmarks.
  destruct (preprocess_fold samples {| features := []; labels := [] |})
    as (kept & -> & HF).
  eexists. split; [done |]. cbn [features labels app].
  split; [done |]. split; [done |]. split.
  - rewrite length_map. symmetry. by eapply Forall2_length.
  - clear -HF. induction HF as [| sample fs l kept Hfs _ IH]; constructor; [| done].
    by destruct (extractFeatures_filtered _ _ Hfs).
Qed.

(** ** Training errors *)

Lemma NoDup_all_equal_length (l : list string) :
  NoDup l -> (forall a b, a ∈ l -> b ∈ l -> a = b) -> (length l <= 1)%nat.
Proof.
  intros Hnd Heq. destruct l as [| a [| b l]]; cbn; [lia | lia |].
  exfalso. apply NoDup_cons in Hnd as [Hnotin _]. apply Hnotin.
  rewrite (Heq a b); [left | left | right; left].
Qed.

(** X9. [trainClassifier] throws ['No training data available'] on an
    empty feature list and ['Need at least 2 different signs to train']
    when all the labels are the same (or there is none); when it returns
    an artifact, there were features and two different labels, the
    artifact is marked trained and its [featureLength] is the length of
    the first feature vector. *)
Theorem trainClassifier_errors `{Brain} now data :
  (features data = [] ->
   trainClassifier now data = Error "No training data available")
  /\ (features data <> [] ->
      (forall a b, a ∈ labels data -> b ∈ labels data -> a = b) ->
      trainClassifier now data = Error "Need at least 2 different signs to train")
  /\ (forall artifact,
        trainClassifier now data = Returned artifact ->
        features data <> []
        /\ (exists a b, a ∈ labels data /\ b ∈ labels data /\ a <> b)
        /\ trained artifact = true
        /\ featureLength artifact = length (default [] (head (features data)))).
Proof.
  unfold trainClassifier. split; [| split].
  - by intros ->.
  - intros Hne Hsame. destruct (features data) as [| f fs]; [done |].
    cbn [length Nat.eqb]. rewrite setOf_firstOccurrences.
    pose proof (NoDup_all_equal_length (firstOccurrences (labels data))
                  (firstOccurrences_NoDup _)) as Hlen.
    destruct (length (firstOccurrences (labels data)) <? 2)%nat eqn:Hlt; [done |].
    apply Nat.ltb_ge in Hlt. exfalso. enough (length (firstOccurrences (labels data)) <= 1)%nat by lia.
    apply Hlen. intros a b Ha Hb.
    apply (proj1 (firstOccurrences_elem_of _ _)) in Ha.
    apply (proj1 (firstOccurrences_elem_of _ _)) in Hb.
    by apply Hsame.
  - intros artifact. destruct (features data) as [| f fs] eqn:Hfs; [done |].
    cbn [length Nat.eqb]. rewrite setOf_firstOccurrences.
    destruct (length (firstOccurrences (labels data)) <? 2)%nat eqn:Hlt; [done |].
    apply Nat.ltb_ge in Hlt. destruct (brain_train _) as [net st].
    intros [= <-]. split; [done |]. cbn [trained featureLength].
    split; [| done].
    pose proof (firstOccurrences_NoDup (labels data)) as Hnd.
    destruct (firstOccurrences (labels data)) as [| a [| b l]] eqn:Hocc;
      cbn in Hlt; [lia | lia |].
    exists a, b. split; [| split].
    + apply firstOccurrences_elem_of. rewrite Hocc. left.
    + apply firstOccurrences_elem_of. rewrite Hocc. right. left.
    + intros ->. apply NoDup_cons in Hnd as [Hnotin _]. apply Hnotin. left.
Qed.

Lemma trainClassifier_errors_witness :
  @trainClassifier tableBrain "now" {| features := []; labels := [] |}
  = Error "No training data available"
  /\ @trainClassifier tableBrain "now"
       {| features := [[Finite 0]; [Finite 1]]; labels := ["A"; "A"] |}
     = Error "Need at least 2 different signs to train".
Proof.
  split.
  - apply (@trainClassifier_errors tableBrain). reflexivity.
  - apply (@trainClassifier_errors tableBrain); [discriminate |].
    intros a b Ha Hb. cbn in Ha, Hb.
    apply elem_of_cons in Ha as [-> | Ha]; apply elem_of_cons in Hb as [-> | Hb];
      try reflexivity;
      repeat match goal with
        | H : _ ∈ [_] |- _ => apply list_elem_of_singleton in H as ->
        end; reflexivity.
Defined.

(** ** The label chosen by [predictSign] *)

Lemma gt_false_trans (a b c : num) :
  not_nan b -> (a > b)%js = false -> (c > b)%js = true -> (a > c)%js = false.
Proof.
  unfold not_nan, JS.gt, JS.lt.
  destruct a, b, c; try done; intros _; rcases.
Qed.

Lemma gt_irrefl (a : num) : (a > a)%js = false.
Proof. unfold JS.gt, JS.lt. destruct a; try done. rcases. Qed.

Lemma Rltb_true_inv a b : JS.Rltb a b = true -> a < b.
Proof. unfold JS.Rltb. by destruct (Rlt_dec a b). Qed.

Lemma gt_trans (a b c : num) :
  (a > b)%js = true -> (b > c)%js = true -> (a > c)%js = true.
Proof.
  unfold JS.gt, JS.lt. destruct a, b, c; try done.
  intros H1%Rltb_true_inv H2%Rltb_true_inv. apply Rltb_true. lra.
Qed.

Lemma gt_not_nan (a b : num) : (a > b)%js = true -> not_nan a.
Proof. unfold JS.gt, JS.lt. by destruct a, b. Qed.

(** The running maximum after the loop: no score exceeds it, and it is
    either the initial pair or an entry with a positive score. *)
Lemma pickMax_spec prediction :
  let best := pickMax prediction in
  not_nan (fst best)
  /\ (forall entry, In entry prediction -> (snd entry > fst best)%js = false)
  /\ ((best = (Finite 0, "UNKNOWN")
       /\ forall entry, In entry prediction -> (snd entry > Finite 0)%js = false)
      \/ (In (snd best, fst best) prediction
          /\ (fst best > Finite 0)%js = true)).
Proof.
  unfold pickMax. induction prediction as [| entry prediction IH] using rev_ind.
  - cbn. split; [done |]. split; [done |]. left. by split.
  - rewrite fold_left_app. cbn [fold_left].
    set (best := fold_left pickStep prediction (Finite 0, "UNKNOWN")) in *.
    cbv zeta in IH. destruct IH as (Hnn & Hub & Hwhich).
    unfold pickStep. destruct (snd entry > fst best)%js eqn:Hgt; cbn [fst snd].
    + split; [by apply gt_not_nan in Hgt |]. split.
      * intros e [He | [<- | []]]%in_app_or.
        -- by apply (gt_false_trans _ (fst best)); auto.
        -- apply gt_irrefl.
      * right. split.
        -- apply in_or_app. right. left. by destruct entry.
        -- destruct Hwhich as [[Hb _] | [_ Hpos]].
           ++ by rewrite Hb in Hgt.
           ++ by apply (gt_trans _ (fst best)).
    + split; [done |]. split.
      * intros e [He | [<- | []]]%in_app_or; auto.
      * destruct Hwhich as [[Hb Hzero] | [Hin Hpos]].
        -- left. split; [done |].
           intros e [He | [<- | []]]%in_app_or; [by apply Hzero |].
           by rewrite Hb in Hgt.
        -- right. split; [| done]. apply in_or_app. by left.
Qed.

(** X10. When the forward pass has returned and the greatest score is not
    below half of the threshold, [predictSign] answers the label of the
    running maximum with its clamped score: no score of the network
    exceeds it, and the label is either an entry of the network's output
    with a positive score or, when no score is positive, ['UNKNOWN'] with
    the score 0. *)
Theorem predictSign_confident `{Brain} model landmarks settings net fs prediction :
  classifier model ≫= network = Some net ->
  extractFeatures (normalizeLandmarks landmarks) = Some fs ->
  fs <> [] ->
  brain_run net fs = Some prediction ->
  (fst (pickMax prediction) < thresholdOf settings * Finite 0.5)%js = false ->
  let best := pickMax prediction in
  predictSign model landmarks settings
  = {| sign := snd best; confidence := clamp (fst best);
       allPredictions := Some prediction |}
  /\ (forall entry, In entry prediction -> (snd entry > fst best)%js = false)
  /\ ((In (snd best, fst best) prediction /\ (fst best > Finite 0)%js = true)
      \/ (best = (Finite 0, "UNKNOWN")
          /\ forall entry, In entry prediction
                           -> (snd entry > Finite 0)%js = false)).
Proof.
  intros Hnet Hfs Hne Hrun Hhigh best.
  rewrite (predictSign_scored _ _ _ _ _ _ Hnet Hfs Hne Hrun), Hhigh.
  destruct (pickMax_spec prediction) as (_ & Hub & Hwhich).
  split; [done |]. split; [done |]. tauto.
Qed.

Lemma predictSign_confident_witness :
  predictSign (tableModel [("A", Finite 0.9); ("B", Finite 0.3)]) open_hand
    noSettings
  = {| sign := snd (pickMax [("A", Finite 0.9); ("B", Finite 0.3)]);
       confidence := clamp (fst (pickMax [("A", Finite 0.9); ("B", Finite 0.3)]));
       allPredictions := Some [("A", Finite 0.9); ("B", Finite 0.3)] |}.
Proof.
  destruct open_hand_features as (fs & Hfs & Hne).
  eapply (@predictSign_confident tableBrain);
    [reflexivity | exact Hfs | exact Hne | reflexivity |].
  js_eval.
Defined.

(** X11. The sign answered by [predictSign] is always one of the four
    fixed strings ['UNKNOWN'], ['INVALID'], ['ERROR'], ['UNCERTAIN'] or a
    label of the output of the network on the extracted features. *)
Theorem predictSign_sign_known `{Brain} model landmarks settings :
  let result := predictSign model landmarks settings in
  In (sign result) ["UNKNOWN"; "INVALID"; "ERROR"; "UNCERTAIN"]
  \/ exists net fs prediction score,
       classifier model ≫= network = Some net
       /\ extractFeatures (normalizeLandmarks landmarks) = Some fs
       /\ brain_run net fs = Some prediction
       /\ In (sign result, score) prediction.
Proof.
  intros result. subst result.
  destruct (predictSign_cases model landmarks settings)
    as [(s & Hs & ->) | (net & fs & prediction & Hnet & Hfs & Hne & Hrun)].
  - left. destruct Hs as [-> | [-> | ->]]; cbn; tauto.
  - rewrite (predictSign_scored _ _ _ _ _ _ Hnet Hfs Hne Hrun).
    destruct (_ < _)%js; cbn [sign]; [left; cbn; tauto |].
    destruct (pickMax_spec prediction) as (_ & _ & [[Hb _] | [Hin _]]).
    + left. rewrite Hb. cbn. tauto.
    + right. by exists net, fs, prediction, (fst (pickMax prediction)).
Qed.

(** ** The threshold *)

Lemma predictSign_threshold_ext `{Brain} model landmarks s1 s2 :
  thresholdOf s1 = thresholdOf s2 ->
  predictSign model landmarks s1 = predictSign model landmarks s2.
Proof.
  intros Heq. unfold predictSign.
  destruct (classifier model ≫= network); [| done].
  destruct (extractFeatures _); [| done]. destruct (_ || _); [done |].
  destruct (brain_run _ _); [| done]. destruct (pickMax _).
  by rewrite Heq.
Qed.

(** X12. A configured threshold of 0 or NaN is falsy and counts as
    unset: [predictSign] then behaves as with the default 0.7, so a
    threshold of 0 does not switch the ['UNCERTAIN'] override off. *)
Theorem predictSign_falsy_threshold `{Brain} model landmarks t :
  t = Finite 0 \/ t = NaN ->
  predictSign model landmarks {| confidenceThreshold := Some t |}
  = predictSign model landmarks {| confidenceThreshold := None |}
  /\ thresholdOf {| confidenceThreshold := Some t |} = Finite 0.7.
Proof.
  intros Ht.
  assert (thresholdOf {| confidenceThreshold := Some t |} = Finite 0.7) as Hthr.
  { unfold thresholdOf. cbn. destruct Ht as [-> | ->]; cbn; [| done].
    by rewrite Reqb_true. }
  split; [| done]. by apply predictSign_threshold_ext.
Qed.

Lemma predictSign_falsy_threshold_witness :
  predictSign (tableModel [("A", Finite 0.2)]) open_hand
    {| confidenceThreshold := Some (Finite 0) |}
  = predictSign (tableModel [("A", Finite 0.2)]) open_hand
      {| confidenceThreshold := None |}.
Proof.
  apply (@predictSign_falsy_threshold tableBrain). left. reflexivity.
Defined.

(** ** More on the practice route *)

Lemma ge_mono (c : num) a b :
  b <= a -> (c >= Finite a)%js = true -> (c >= Finite b)%js = true.
Proof.
  intros Hba. destruct c; try done. cbn. unfold JS.Rleb.
  destruct (Rle_dec a r), (Rle_dec b r); try done. lra.
Qed.

(** X13. In the feedback of the practice route a correct answer is also
    partially correct; the status is [success] exactly when the answer is
    correct, [partial] exactly when it is partially correct but not
    correct, and [unclear] exactly when the test [confidence >= 0.4]
    fails, which includes a NaN confidence and the confidence 0 of the
    sentinel results. *)
Theorem practiceFeedback_flags prediction expectedSign :
  let feedback := practiceFeedback prediction expectedSign in
  (isCorrect feedback = true -> isPartiallyCorrect feedback = true)
  /\ (status feedback = success <-> isCorrect feedback = true)
  /\ (status feedback = partial
      <-> isPartiallyCorrect feedback = true /\ isCorrect feedback = false)
  /\ (status feedback = unclear
      <-> (confidence prediction >= Finite 0.4)%js = false)
  /\ (forall s, status (practiceFeedback (sentinel s) expectedSign) = unclear).
Proof.
  unfold practiceFeedback. cbn [isCorrect isPartiallyCorrect status].
  pose proof (ge_mono (confidence prediction) 0.7 0.5 ltac:(lra)) as H75.
  pose proof (ge_mono (confidence prediction) 0.5 0.4 ltac:(lra)) as H54.
  destruct (bool_decide (sign prediction = expectedSign));
    destruct (confidence prediction >= Finite 0.7)%js;
    destruct (confidence prediction >= Finite 0.5)%js;
    destruct (confidence prediction >= Finite 0.4)%js;
    cbn [andb];
    try (specialize (H75 eq_refl)); try (specialize (H54 eq_refl));
    try discriminate;
    (repeat split; try done; try (intros []; done));
    intros s; cbn; unfold JS.Rleb;
    destruct (bool_decide _); cbn;
    repeat match goal with
      | |- context [Rle_dec ?a ?b] => destruct (Rle_dec a b); try lra
      end; reflexivity.
Qed.

(** X14. Through the practice route with no threshold configured (the
    route's own default 0.6 applies), a forward pass whose greatest score
    is below 0.3 is answered with the prediction ['UNCERTAIN'], which is
    counted neither correct nor partially correct, and with the status
    [unclear]. *)
Theorem practice_uncertain_unclear `{Brain} store req model net fs prediction :
  pr_modelId req <> "" ->
  length (pr_landmarks req) = 21%nat ->
  pr_expectedSign req <> "" ->
  store !! pr_modelId req = Some model ->
  classifier model ≫= network = Some net ->
  confidenceThreshold (detection model) = None ->
  confidenceThreshold (pr_settings req) = None ->
  extractFeatures (normalizeLandmarks (pr_landmarks req)) = Some fs ->
  fs <> [] ->
  brain_run net fs = Some prediction ->
  (fst (pickMax prediction) < Finite 0.3)%js = true ->
  exists feedback,
    practicePredict store req = PracticeResult feedback
    /\ fb_prediction feedback = "UNCERTAIN"
    /\ isCorrect feedback = false
    /\ isPartiallyCorrect feedback = false
    /\ status feedback = unclear.
Proof.
  intros Hid Hlen Hexp Hmodel Hnet Hdet Hreq Hfs Hne Hrun Hlow.
  unfold practicePredict, ModelStorage.getModel.
  rewrite !bool_decide_eq_false_2 by done. rewrite Hlen, Hmodel. cbn [Nat.eqb negb orb].
  destruct (classifier model) as [c |] eqn:Hc; [| done].
  rewrite (predictSign_scored _ _ _ _ _ _
             ltac:(rewrite Hc; exact Hnet) Hfs Hne Hrun).
  assert (thresholdOf (practiceSettings (detection model) (pr_settings req))
          = Finite 0.6) as ->.
  { unfold practiceSettings, thresholdOf. rewrite Hdet, Hreq. cbn.
    by rewrite Reqb_false by lra. }
  destruct (pickMax_spec prediction) as (_ & _ & Hwhich).
  destruct (fst (pickMax prediction)) as [raw | | |] eqn:Hraw; try done.
  2: { destruct Hwhich as [[Hb _] | [_ Hpos]]; [| done].
       rewrite Hb in Hraw. discriminate Hraw. }
  cbn in Hlow. apply Rltb_true_inv in Hlow.
  cbn [JS.mul JS.lt]. rewrite Rltb_true by lra.
  eexists. split; [reflexivity |].
  unfold practiceFeedback, clamp, Math.min, Math.max, JS.ge, JS.lt.
  cbn [fb_prediction isCorrect isPartiallyCorrect status sign confidence].
  split; [done |].
  unfold JS.Rltb, JS.Rleb.
  repeat match goal with
    | |- context [Rlt_dec ?a ?b] => destruct (Rlt_dec a b); try lra
    | |- context [Rle_dec ?a ?b] => destruct (Rle_dec a b); try lra
    end;
    by rewrite ?andb_false_r.
Qed.

Lemma practice_uncertain_unclear_witness :
  exists feedback,
    practicePredict (practiceStore [("A", Finite 0.2)]) (practiceRequest "A")
    = PracticeResult feedback
    /\ fb_prediction feedback = "UNCERTAIN"
    /\ isCorrect feedback = false
    /\ isPartiallyCorrect feedback = false
    /\ status feedback = unclear.
Proof.
  destruct open_hand_features as (fs & Hfs & Hne).
  eapply (@practice_uncertain_unclear tableBrain
            (practiceStore [("A", Finite 0.2)]) (practiceRequest "A")
            (tableModel [("A", Finite 0.2)]) [("A", Finite 0.2)] fs
            [("A", Finite 0.2)]);
    try reflexivity; try discriminate; try exact Hfs; try exact Hne.
  js_eval.
Defined.

(** ** More on the training route *)

(** X15. Whatever the request, the training route touches no model but
    the one it names and creates none; the answers [InvalidTrainingData]
    and [ModelNotFound] leave the store as it was; the samples of the
    named model are afterwards its old samples, or its old samples
    followed by those of the request; and unless the answer is
    [TrainingCompleted], its classifier and its sample counts are
    unchanged. *)
Theorem train_frame `{Brain} now store req :
  let store' := fst (train now store req) in
  let response := snd (train now store req) in
  (forall other, other <> tr_modelId req -> store' !! other = store !! other)
  /\ (response = InvalidTrainingData \/ response = ModelNotFound ->
      store' = store)
  /\ (store !! tr_modelId req = None -> store' = store)
  /\ (forall model,
        store !! tr_modelId req = Some model ->
        exists stored,
          store' !! tr_modelId req = Some stored
          /\ detection stored = detection model
          /\ (samples stored = samples model
              \/ samples stored = samples model ++ tr_samples req)
          /\ ((forall m n counts, response <> TrainingCompleted m n counts) ->
              classifier stored = classifier model
              /\ sampleCounts stored = sampleCounts model)).
Proof.
  unfold train, ModelStorage.addSamplesToModel, ModelStorage.updateModel,
    ModelStorage.getModel.
  destruct (bool_decide (tr_modelId req = "") || (length (tr_samples req) =? 0)%nat).
  { cbn [fst snd]. repeat split; try done. intros model Hmodel.
    exists model. repeat split; auto. }
  destruct (store !! tr_modelId req) as [model |] eqn:Hmodel.
  2: { cbn [fst snd]. repeat split; done. }
  cbn [fst]. rewrite lookup_insert_eq. cbn [samples].
  set (stored := {| samples := samples model ++ tr_samples req;
                    classifier := classifier model;
                    detection := detection model;
                    sampleCounts := sampleCounts model |}).
  assert (forall response,
            response <> InvalidTrainingData -> response <> ModelNotFound ->
            (forall other, other <> tr_modelId req ->
               <[tr_modelId req := stored]> store !! other = store !! other)
            /\ (response = InvalidTrainingData \/ response = ModelNotFound ->
                <[tr_modelId req := stored]> store = store)
            /\ (Some model = None -> <[tr_modelId req := stored]> store = store)
            /\ (forall model0,
                  Some model = Some model0 ->
                  exists stored0,
                    <[tr_modelId req := stored]> store !! tr_modelId req
                    = Some stored0
                    /\ detection stored0 = detection model0
                    /\ (samples stored0 = samples model0
                        \/ samples stored0 = samples model0 ++ tr_samples req)
                    /\ ((forall m n counts,
                           response <> TrainingCompleted m n counts) ->
                        classifier stored0 = classifier model0
                        /\ sampleCounts stored0 = sampleCounts model0))) as Herr.
  { intros response Hr1 Hr2.
    split; [by intros other Hother; rewrite lookup_insert_ne |].
    split; [by intros [Hr | Hr] |]. split; [done |].
    intros model0 [= <-]. exists stored. rewrite lookup_insert_eq.
    repeat split; auto. }
  destruct (length (samples model ++ tr_samples req) <? 2)%nat;
    [cbn [fst snd]; by apply Herr |].
  destruct (0 <? length _)%nat; [cbn [fst snd]; by apply Herr |].
  destruct (preprocessLandmarks _) as [data |];
    [| cbn [fst snd]; by apply Herr].
  destruct (trainClassifier now data) as [artifact | msg];
    [| cbn [fst snd]; by apply Herr].
  cbn [fst snd]. subst stored. cbn [samples detection].
  split; [by intros other Hother; rewrite !lookup_insert_ne |].
  split; [by intros [Habs | Habs] |]. split; [done |].
  intros model0 [= <-]. eexists. rewrite lookup_insert_eq. split; [done |].
  cbn [samples detection classifier sampleCounts].
  split; [done |]. split; [by right |].
  intros Hnot. by destruct (Hnot (Some {| samples := samples model ++ tr_samples req;
                                          classifier := Some artifact;
                                          detection := detection model;
                                          sampleCounts := Some (countSigns (samples model ++ tr_samples req)) |})
                             (length (samples model ++ tr_samples req))
                             (countSigns (samples model ++ tr_samples req))).
Qed.





(** ** Sessions *)








(** X19. Ending a stored session marks it completed, records the end
    time and the text and keeps the predictions and the counts; the
    duration is the whole number of seconds elapsed since the start.  The
    prediction route does not look at the [completed] flag: a prediction
    posted afterwards is still appended, the session stays completed with
    its end time, and the recorded duration is overwritten. *)
Theorem endSession_then_prediction now1 now2 store sessionId text session
    prediction confidence :
  store !! sessionId = Some session ->
  exists ended updated,
    endSession now1 store sessionId text
    = (<[sessionId := ended]> store, SessionResult (Some ended))
    /\ completed ended = true
    /\ endTime ended = Some now1
    /\ detectedText ended = text
    /\ predictions ended = predictions session
    /\ totalPredictions (session_stats ended)
       = totalPredictions (session_stats session)
    /\ sessionDuration (session_stats ended)
       = ((now1 - startTime session) / 1000)%Z
    /\ addPrediction now2 (<[sessionId := ended]> store) sessionId
         prediction confidence
       = (<[sessionId := updated]> store, SessionResult (Some updated))
    /\ completed updated = true
    /\ endTime updated = Some now1
    /\ predictions updated
       = predictions session
         ++ [{| sp_sign := prediction; sp_confidence := confidence;
                sp_timestamp := now2 |}]
    /\ sessionDuration (session_stats updated)
       = ((now2 - startTime session) / 1000)%Z.
Proof.
  intros Hsession.
  unfold endSession, addPrediction, SessionStorage.updateSession,
    SessionStorage.getSession.
  rewrite Hsession. do 2 eexists. split; [reflexivity |].
  rewrite lookup_insert_eq, insert_insert_eq. by repeat split.
Qed.

Lemma endSession_then_prediction_witness :
  exists ended,
    endSession 9000 {[ "s" := mkSession "s" "m" noSettings 1000 []
                                 (mkSessionStats 0 (Finite 0) 0 0) None None false ]}
               "s" (Some "hola")
    = (<["s" := ended]>
         {[ "s" := mkSession "s" "m" noSettings 1000 []
                     (mkSessionStats 0 (Finite 0) 0 0) None None false ]},
       SessionResult (Some ended))
    /\ completed ended = true
    /\ sessionDuration (session_stats ended) = ((9000 - 1000) / 1000)%Z.
Proof.
  destruct (endSession_then_prediction 9000 9500
              {[ "s" := mkSession "s" "m" noSettings 1000 []
                          (mkSessionStats 0 (Finite 0) 0 0) None None false ]}
              "s" (Some "hola")
              (mkSession "s" "m" noSettings 1000 []
                 (mkSessionStats 0 (Finite 0) 0 0) None None false)
              "A" (Finite 0.9))
    as (ended & updated & Hend & Hcompleted & _ & _ & _ & _ & Hduration & _).
  - apply lookup_singleton_eq.
  - exists ended. split; [exact Hend |]. split; [exact Hcompleted | exact Hduration].
Defined.

(** ** The status route *)





(** ** The prediction route against the practice route *)

(** X21. The two routes hand the same settings to [predictSign] as soon
    as the request or the model configures a threshold; when neither
    does, the prediction route works with 0.7 and the practice route with
    0.6.  For the same model and landmarks, a greatest score from 0.3 up
    to but not including 0.35 is then answered ['UNCERTAIN'] by the
    prediction route, while the practice route reports the label of the
    greatest score. *)
Theorem predict_practice_thresholds `{Brain} :
  (forall detection settings,
     confidenceThreshold settings <> None
     \/ confidenceThreshold detection <> None ->
     predictSettings detection settings = practiceSettings detection settings)
  /\ (forall detection settings,
        confidenceThreshold settings = None ->
        confidenceThreshold detection = None ->
        thresholdOf (predictSettings detection settings) = Finite 0.7
        /\ thresholdOf (practiceSettings detection settings) = Finite 0.6)
  /\ (forall store modelId landmarks expected model net fs prediction raw,
        modelId <> "" -> length landmarks = 21%nat -> expected <> "" ->
        store !! modelId = Some model ->
        classifier model ≫= network = Some net ->
        confidenceThreshold (detection model) = None ->
        extractFeatures (normalizeLandmarks landmarks) = Some fs ->
        fs <> [] ->
        brain_run net fs = Some prediction ->
        fst (pickMax prediction) = Finite raw ->
        0.3 <= raw < 0.35 ->
        predict store {| pq_modelId := modelId; pq_landmarks := landmarks;
                         pq_settings := {| confidenceThreshold := None |} |}
        = PredictResult "UNCERTAIN" (clamp (Finite (raw * 0.5))) prediction
        /\ exists feedback,
             practicePredict store
               {| pr_modelId := modelId; pr_landmarks := landmarks;
                  pr_expectedSign := expected;
                  pr_settings := {| confidenceThreshold := None |} |}
             = PracticeResult feedback
             /\ fb_prediction feedback = snd (pickMax prediction)
             /\ fb_confidence feedback = clamp (Finite raw)).
Proof.
  split; [| split].
  - intros [d] [s] Hsome. unfold predictSettings, practiceSettings.
    cbn in *. destruct s, d; try done. by destruct Hsome.
  - intros [d] [s]. cbn. intros -> ->. unfold thresholdOf. cbn.
    by rewrite Reqb_false by lra.
  - intros store modelId landmarks expected model net fs prediction raw
      Hid Hlen Hexp Hmodel Hnet Hdet Hfs Hne Hrun Hraw Hrange.
    assert (exists c, classifier model = Some c) as (c & Hc).
    { destruct (classifier model); [eauto | done]. }
    split.
    + unfold predict, ModelStorage.getModel. cbn [pq_modelId pq_landmarks pq_settings].
      rewrite bool_decide_eq_false_2, Hlen, Hmodel, Hc by done.
      cbn [Nat.eqb negb orb].
      rewrite (predictSign_scored _ _ _ _ _ _ Hnet Hfs Hne Hrun), Hraw.
      unfold predictSettings, thresholdOf. rewrite Hdet.
      cbn [confidenceThreshold JS.mul JS.lt]. rewrite Rltb_true by lra.
      reflexivity.
    + unfold practicePredict, ModelStorage.getModel.
      cbn [pr_modelId pr_landmarks pr_expectedSign pr_settings].
      rewrite !bool_decide_eq_false_2, Hlen, Hmodel, Hc by done.
      cbn [Nat.eqb negb orb].
      rewrite (predictSign_scored _ _ _ _ _ _ Hnet Hfs Hne Hrun), Hraw.
      unfold practiceSettings, thresholdOf. rewrite Hdet.
      cbn [confidenceThreshold JS.truthy]. rewrite Reqb_false by lra.
      cbn [negb JS.mul JS.lt]. rewrite Rltb_false by lra.
      eexists. split; [reflexivity |]. by split.
Qed.

Lemma predict_practice_thresholds_witness :
  @predict tableBrain (practiceStore [("A", Finite 0.32)])
    {| pq_modelId := "m"; pq_landmarks := open_hand;
       pq_settings := {| confidenceThreshold := None |} |}
  = PredictResult "UNCERTAIN" (clamp (Finite (0.32 * 0.5))) [("A", Finite 0.32)].
Proof.
  destruct open_hand_features as (fs & Hfs & Hne).
  destruct (proj2 (proj2 (@predict_practice_thresholds tableBrain))
              (practiceStore [("A", Finite 0.32)]) "m" open_hand "A"
              (tableModel [("A", Finite 0.32)]) [("A", Finite 0.32)] fs
              [("A", Finite 0.32)] 0.32) as [Hpredict _];
    try reflexivity; try discriminate; try exact Hfs; try exact Hne.
  - js_eval.
  - lra.
  - exact Hpredict.
Defined.

(** ** Model storage *)

(** X22. [addSamplesToModel] answers [null] for an unknown model and
    leaves the store as it was; for a stored model it appends the new
    samples after the old ones and keeps every other field, and
    [getModel] then returns the updated model.  Adding two batches one
    after the other gives the same store as adding their concatenation. *)
Theorem addSamplesToModel_appends `{Brain} store modelId batch1 batch2 :
  (store !! modelId = None ->
   ModelStorage.addSamplesToModel store modelId batch1 = (store, None))
  /\ (forall model,
        store !! modelId = Some model ->
        exists updated,
          ModelStorage.addSamplesToModel store modelId batch1
          = (<[modelId := updated]> store, Some updated)
          /\ samples updated = samples model ++ batch1
          /\ classifier updated = classifier model
          /\ detection updated = detection model
          /\ sampleCounts updated = sampleCounts model
          /\ ModelStorage.getModel
               (fst (ModelStorage.addSamplesToModel store modelId batch1)) modelId
             = Some updated)
  /\ fst (ModelStorage.addSamplesToModel
            (fst (ModelStorage.addSamplesToModel store modelId batch1))
            modelId batch2)
     = fst (ModelStorage.addSamplesToModel store modelId (batch1 ++ batch2)).
Proof.
  unfold ModelStorage.addSamplesToModel, ModelStorage.updateModel,
    ModelStorage.getModel.
  split; [by intros -> |]. split.
  - intros model ->. eexists. split; [reflexivity |]. cbn [fst].
    rewrite lookup_insert_eq. by repeat split.
  - destruct (store !! modelId) as [model |] eqn:Hmodel; cbn [fst].
    + rewrite lookup_insert_eq. cbn [fst samples classifier detection sampleCounts].
      by rewrite insert_insert_eq, app_assoc.
    + by rewrite Hmodel.
Qed.

Lemma addSamplesToModel_appends_witness :
  @ModelStorage.addSamplesToModel tableBrain emptyStore "zzz" [sampleA]
  = (emptyStore, None).
Proof.
  apply (proj1 (@addSamplesToModel_appends tableBrain emptyStore "zzz"
                  [sampleA] [])).
  reflexivity.
Defined.

(** ** Practice statistics *)







(** ** Responses in natural language *)

Lemma splitSpace_length s : length (splitSpace s) = S (countSpaces s).
Proof.
  induction s as [| c rest IH]; [reflexivity |].
  cbn [splitSpace countSpaces]. destruct (Ascii.eqb c space).
  - cbn [length]. by rewrite IH.
  - destruct (splitSpace rest) as [| word words]; [discriminate IH |].
    cbn [length] in *. lia.
Qed.

(** X24. When the manager throws, [generateResponse] answers
    ['Mensaje recibido: '] followed by the text, and when the manager has
    an answer it returns it.  Otherwise it answers the sentence built
    from the words of the lower-cased text: splitting at the spaces gives
    one word more than there are spaces, never none, so the last
    alternative, ['Has expresado: '] followed by the text, is never
    produced on this path. *)
Theorem generateResponse_paths `{Nlp} text :
  (forall message,
     manager_process (toLowerCase text) = Error message ->
     generateResponse text = "Mensaje recibido: " +:+ text)
  /\ (forall answer,
        manager_process (toLowerCase text) = Returned (Some answer) ->
        generateResponse text = answer)
  /\ (manager_process (toLowerCase text) = Returned None ->
      generateResponse text
      = constructSentence
          (processSignLanguageText (splitSpace (toLowerCase text)))
      /\ length (processSignLanguageText (splitSpace (toLowerCase text)))
         = S (countSpaces (toLowerCase text))).
Proof.
  unfold generateResponse. split; [| split].
  - by intros message ->.
  - by intros answer ->.
  - intros ->.
    assert (length (processSignLanguageText (splitSpace (toLowerCase text)))
            = S (countSpaces (toLowerCase text))) as Hlen.
    { unfold processSignLanguageText. by rewrite length_map, splitSpace_length. }
    split; [| exact Hlen]. by rewrite Hlen.
Qed.

Lemma generateResponse_paths_witness :
  @generateResponse silentNlp "hola a 1"
  = constructSentence (processSignLanguageText (splitSpace "hola a 1"))
  /\ length (processSignLanguageText (splitSpace "hola a 1")) = 3%nat.
Proof.
  apply (proj2 (proj2 (@generateResponse_paths silentNlp "hola a 1"))).
  reflexivity.
Defined.

(** The response to the three words [hola a 1]. *)
Example generateResponse_example :
  @generateResponse silentNlp "hola a 1"
  = "Has expresado hola, la letra A y el número uno.".
Proof. reflexivity. Qed.

(** ** The life of a session *)

(** X25. Starting a session for an unknown model answers 404 and stores
    nothing.  For a stored model the session is stored under the
    identifier drawn for it, not completed and without predictions; after
    any series of predictions posted to it, the stored session holds them
    all in the order of posting, and as soon as there is one, its total
    is their number and its count of high-confidence predictions and its
    average are those of the whole list. *)
Theorem session_lifecycle `{Brain} now sessionId models store modelId settings :
  (models !! modelId = None ->
   startSession now sessionId models store modelId settings
   = (store, SessionModelNotFound))
  /\ (forall model posts,
        models !! modelId = Some model ->
        exists session,
          postAll (fst (startSession now sessionId models store modelId settings))
                  sessionId posts !! sessionId = Some session
          /\ session_modelId session = modelId
          /\ startTime session = now
          /\ completed session = false
          /\ predictions session = map posted posts
          /\ (posts <> [] ->
              totalPredictions (session_stats session) = length posts
              /\ highConfidencePredictions (session_stats session)
                 = highConfidenceCount (map posted posts)
              /\ avgConfidence (session_stats session)
                 = averageConfidence (map posted posts))).
Proof.
  unfold startSession, ModelStorage.getModel, SessionStorage.createSession.
  split; [by intros -> |].
  intros model posts ->. cbn [fst].
  induction posts as [| post posts IH] using rev_ind.
  - eexists. cbn. rewrite lookup_insert_eq. by repeat split.
  - destruct IH as (session & Hstored & Hmodel & Hstart & Hcompleted & Hpreds & _).
    unfold postAll in *. rewrite fold_left_app. cbn [fold_left].
    unfold addPrediction at 1, SessionStorage.updateSession,
      SessionStorage.getSession.
    rewrite Hstored. cbn [fst]. eexists. rewrite lookup_insert_eq.
    split; [reflexivity |].
    cbn [session_modelId startTime completed predictions session_stats
           totalPredictions highConfidencePredictions avgConfidence].
    rewrite Hpreds, map_app. cbn [map].
    split; [exact Hmodel |]. split; [exact Hstart |].
    split; [exact Hcompleted |]. split; [done |]. intros _.
    split; [| done]. by rewrite !length_app, length_map.
Qed.

Lemma session_lifecycle_witness :
  @startSession tableBrain 1000 "s" ∅ ∅ "m" None = (∅, SessionModelNotFound).
Proof.
  apply (proj1 (@session_lifecycle tableBrain 1000 "s" ∅ ∅ "m" None)).
  reflexivity.
Defined.
